(** * KodBank: the account ledger core

    A shallow embedding of the ledger part of the KodBank backend:

    - the schema of migration 001 (tables [BankUser] and [Transactions],
      their CHECK constraints, and the stored procedures
      [validate_transfer], [execute_transfer], [deposit_money] and
      [withdraw_money]);
    - [database.transaction] of config/database.js;
    - the queries of models/bankUserModel.js and models/transactionModel.js
      that the ledger operations use, and [getRecentTransactions],
      [getUserTransactionStatistics], [updateStatus] and
      [getFailedTransactions] of the latter;
    - services/bankService.js: [getBalance], [transferMoney],
      [depositMoney], [withdrawMoney], [getTransactionHistory],
      [getTransactionDetails], [getRecentTransactions] and
      [validateTransfer];
    - the message dispatch of middleware/errorHandler.js;
    - [rateLimit] of middleware/authMiddleware.js.

    Conventions.  A [DECIMAL(15,2)] column is the integer number of its
    hundredths (minor units).  A [DECIMAL] procedure argument and a
    JavaScript amount are exact decimals [digits / 10^scale]; storing into
    a [DECIMAL(15,2)] column rounds half away from zero, as PostgreSQL
    does.  The binary rounding of [parseFloat] on literals longer than a
    double can hold is outside the model, and amounts are written in plain
    decimal notation (no exponent).  Every [await] is a step of a state
    monad over the database; a thrown [Error] or a raised SQL exception is
    the [Throw] result.  The text of PostgreSQL's own error messages is
    abridged; their SQLSTATE codes are kept. *)

From stdpp Require Import gmap strings list fin_maps sorting.
From Stdlib Require Import ZArith Lia.

#[local] Open Scope string_scope.
#[local] Open Scope Z_scope.

(** ** Exact decimals and DECIMAL(15,2) *)

Module Numeric.

(** The decimal [digits / 10^scale]; [scale] is the number of digits
    written after the point. *)
Record numeric := mk_numeric { digits : Z; scale : nat }.

Definition pow10 (n : nat) : Z := 10 ^ Z.of_nat n.

(** [x / 10^k] rounded to an integer, ties away from zero. *)
Definition round_div (x : Z) (k : nat) : Z :=
  let p := pow10 k in
  if 0 <=? x then (2 * x + p) / (2 * p)
  else - ((2 * (- x) + p) / (2 * p)).

(** A minor-unit value and a decimal brought to the common scale
    [max 2 (scale d)]. *)
Definition money_at (c : Z) (d : numeric) : Z := c * pow10 (scale d - 2).
Definition digits_at (d : numeric) : Z := digits d * pow10 (2 - scale d).

(** [c + d] and [c - d] stored back into a DECIMAL(15,2) column. *)
Definition add_money (c : Z) (d : numeric) : Z :=
  round_div (money_at c d + digits_at d) (scale d - 2).
Definition sub_money (c : Z) (d : numeric) : Z :=
  round_div (money_at c d - digits_at d) (scale d - 2).

(** [d] stored into a DECIMAL(15,2) column. *)
Definition to_money (d : numeric) : Z := round_div (digits_at d) (scale d - 2).

(** [c < d] for a column value [c]. *)
Definition money_ltb (c : Z) (d : numeric) : bool := money_at c d <? digits_at d.

(** [d <= 0] and [d > n] for an integer [n]. *)
Definition le0 (d : numeric) : bool := digits d <=? 0.
Definition gtb_int (d : numeric) (n : Z) : bool := n * pow10 (scale d) <? digits d.

(** DECIMAL(15,2) holds absolute values below 10^13, that is below
    10^15 minor units. *)
Definition MAX_MONEY : Z := 10 ^ 15.
Definition overflows (c : Z) : bool := MAX_MONEY <=? Z.abs c.

(** The shortest decimal notation: trailing zeros after the point are
    dropped, as [Number.prototype.toString] does. *)
Fixpoint strip_zeros (n : nat) (m : Z) : numeric :=
  match n with
  | O => mk_numeric m O
  | S k => if m mod 10 =? 0 then strip_zeros k (m / 10) else mk_numeric m n
  end.

Definition normalize (d : numeric) : numeric := strip_zeros (scale d) (digits d).

(** A whole number of major units, as a decimal. *)
Definition of_int (n : Z) : numeric := mk_numeric n 0.

End Numeric.
Export Numeric.

(** ** Errors and the state monad *)

(** An exception: the [code] is set for errors that come from PostgreSQL
    (SQLSTATE), and is absent on a JavaScript [new Error(message)]. *)
Record error := mk_error { code : option string; message : string }.

Definition Error (msg : string) : error := mk_error None msg.

(** PL/pgSQL [RAISE EXCEPTION 'msg'] reaches the client with SQLSTATE P0001. *)
Definition raise_exception (msg : string) : error := mk_error (Some "P0001") msg.

Definition numeric_overflow : error :=
  mk_error (Some "22003") "numeric field overflow".
Definition check_violation (constraint : string) : error :=
  mk_error (Some "23514") ("violates check constraint " ++ constraint).
Definition foreign_key_violation (constraint : string) : error :=
  mk_error (Some "23503") ("violates foreign key constraint " ++ constraint).
Definition TypeError (msg : string) : error := mk_error None msg.

Inductive result (A : Type) : Type :=
| Ok (a : A)
| Throw (e : error).
Arguments Ok {A} a.
Arguments Throw {A} e.

(** ** The schema *)

Inductive transaction_type := transfer | deposit | withdrawal.
Inductive transaction_status := completed | pending | failed.

#[global] Instance transaction_type_eq_dec : EqDecision transaction_type.
Proof. solve_decision. Defined.
#[global] Instance transaction_status_eq_dec : EqDecision transaction_status.
Proof. solve_decision. Defined.

(** A row of [BankUser], keyed by [customer_id] in the table.  The
    password and the two timestamps play no part in the ledger. *)
Record BankUserRow := mk_user {
  name : string;
  email : string;
  balance : Z
}.

(** A row of [Transactions]. *)
Record TransactionRow := mk_transaction {
  transaction_id : Z;
  from_customer_id : Z;
  to_customer_id : option Z;
  amount : Z;
  transaction_type_of : transaction_type;
  transaction_date : Z;
  status : transaction_status;
  description : option string
}.

(** The database as one connection sees it, with the server clock.
    [row_locks] lists the [BankUser] rows the open transaction holds an
    exclusive lock on, in the order it acquired them. *)
Record State := mk_state {
  BankUser : gmap Z BankUserRow;
  Transactions : list TransactionRow;
  transaction_id_seq : Z;
  row_locks : list Z;
  clock : Z
}.

Definition M (A : Type) : Type := State -> result A * State.

Definition ret {A} (a : A) : M A := fun s => (Ok a, s).
Definition throw {A} (e : error) : M A := fun s => (Throw e, s).
Definition bind {A B} (m : M A) (k : A -> M B) : M B :=
  fun s => match m s with
           | (Ok a, s') => k a s'
           | (Throw e, s') => (Throw e, s')
           end.

Notation "'let*' x ':=' m 'in' k" := (bind m (fun x => k))
  (at level 10, x pattern, m at level 100, k at level 200).
Notation "m ';;' k" := (bind m (fun _ => k))
  (at level 100, k at level 200, right associativity).

Definition when_ (b : bool) (m : M unit) : M unit := if b then m else ret tt.

Definition set_BankUser (f : gmap Z BankUserRow -> gmap Z BankUserRow) (s : State) : State :=
  mk_state (f (BankUser s)) (Transactions s) (transaction_id_seq s) (row_locks s) (clock s).
Definition set_row_locks (l : list Z) (s : State) : State :=
  mk_state (BankUser s) (Transactions s) (transaction_id_seq s) l (clock s).
Definition set_clock (t : Z) (s : State) : State :=
  mk_state (BankUser s) (Transactions s) (transaction_id_seq s) (row_locks s) t.

Module Schema.

(** Taking the exclusive lock of the row [id]: nothing happens when the
    row does not exist or the transaction holds the lock already. *)
Definition lock_row (id : Z) (s : State) : State :=
  match BankUser s !! id with
  | None => s
  | Some _ =>
      if bool_decide (id ∈ row_locks s) then s
      else set_row_locks (row_locks s ++ [id]) s
  end.

(** [SELECT balance INTO v FROM BankUser WHERE customer_id = id] *)
Definition select_balance (id : Z) : M (option Z) :=
  fun s => (Ok (balance <$> BankUser s !! id), s).

(** [SELECT balance INTO v FROM BankUser WHERE customer_id = id FOR UPDATE] *)
Definition select_balance_for_update (id : Z) : M (option Z) :=
  fun s => (Ok (balance <$> BankUser s !! id), lock_row id s).

(** [SELECT EXISTS(SELECT 1 FROM BankUser WHERE customer_id = id)] *)
Definition user_exists (id : Z) : M bool :=
  fun s => (Ok (bool_decide (is_Some (BankUser s !! id))), s).

(** [UPDATE BankUser SET balance = f(balance) WHERE customer_id = id]:
    the new value is coerced to DECIMAL(15,2) by [f], then
    [chk_balance_non_negative] is checked.  The statement locks the row
    it updates, and updates nothing when there is no such row. *)
Definition update_balance (f : Z -> Z) (id : Z) : M unit :=
  fun s =>
    match BankUser s !! id with
    | None => (Ok tt, s)
    | Some u =>
        let b := f (balance u) in
        let s' := lock_row id s in
        if overflows b then (Throw numeric_overflow, s')
        else if b <? 0 then (Throw (check_violation "chk_balance_non_negative"), s')
        else (Ok tt, set_BankUser (insert id (mk_user (name u) (email u) b)) s')
    end.

(** [INSERT INTO Transactions (...) VALUES (...) RETURNING transaction_id].
    The sequence behind the SERIAL column advances first, then the amount
    is coerced to DECIMAL(15,2), [chk_amount_positive] is checked (the
    two other CHECK constraints hold by typing), and last the foreign
    keys to [BankUser]. *)
Definition insert_transaction (from : Z) (to : option Z) (amt : numeric)
    (ty : transaction_type) (st : transaction_status) (descr : option string) : M Z :=
  fun s =>
    let id := transaction_id_seq s in
    let s1 := mk_state (BankUser s) (Transactions s) (id + 1) (row_locks s) (clock s) in
    let a := to_money amt in
    if overflows a then (Throw numeric_overflow, s1)
    else if a <=? 0 then (Throw (check_violation "chk_amount_positive"), s1)
    else if negb (bool_decide (is_Some (BankUser s !! from)))
    then (Throw (foreign_key_violation "transactions_from_customer_id_fkey"), s1)
    else if match to with
            | Some t => negb (bool_decide (is_Some (BankUser s !! t)))
            | None => false
            end
    then (Throw (foreign_key_violation "transactions_to_customer_id_fkey"), s1)
    else
      (Ok id,
       mk_state (BankUser s)
         (Transactions s ++ [mk_transaction id from to a ty (clock s) st descr])
         (id + 1) (row_locks s) (clock s)).

(** [validate_transfer(p_from_customer_id, p_to_customer_id, p_amount)] *)
Definition validate_transfer (p_from_customer_id : Z) (p_to_customer_id : option Z)
    (p_amount : numeric) : M bool :=
  let* from_exists := user_exists p_from_customer_id in
  if negb from_exists then ret false
  else
    let* to_ok :=
      match p_to_customer_id with
      | Some t => user_exists t
      | None => ret true
      end in
    if negb to_ok then ret false
    else
      let* from_balance := select_balance p_from_customer_id in
      if match from_balance with
         | Some b => money_ltb b p_amount
         | None => false
         end
      then ret false
      else if bool_decide (Some p_from_customer_id = p_to_customer_id) then ret false
      else ret true.

(** [execute_transfer(p_from_customer_id, p_to_customer_id, p_amount, p_description)] *)
Definition execute_transfer (p_from_customer_id : Z) (p_to_customer_id : option Z)
    (p_amount : numeric) (p_description : option string) : M Z :=
  let* from_balance := select_balance_for_update p_from_customer_id in
  let* to_balance :=
    match p_to_customer_id with
    | Some t => select_balance_for_update t
    | None => ret None
    end in
  let* valid := validate_transfer p_from_customer_id p_to_customer_id p_amount in
  when_ (negb valid) (throw (raise_exception "Invalid transfer"));;
  update_balance (fun b => sub_money b p_amount) p_from_customer_id;;
  match p_to_customer_id with
  | Some t => update_balance (fun b => add_money b p_amount) t
  | None => ret tt
  end;;
  let* transaction_id_val :=
    insert_transaction p_from_customer_id p_to_customer_id p_amount
      transfer completed p_description in
  ret transaction_id_val.

(** [deposit_money(p_customer_id, p_amount, p_description)] *)
Definition deposit_money (p_customer_id : Z) (p_amount : numeric)
    (p_description : option string) : M Z :=
  when_ (le0 p_amount) (throw (raise_exception "Amount must be positive"));;
  let* found := user_exists p_customer_id in
  when_ (negb found) (throw (raise_exception "Customer not found"));;
  update_balance (fun b => add_money b p_amount) p_customer_id;;
  let* transaction_id_val :=
    insert_transaction p_customer_id None p_amount deposit completed p_description in
  ret transaction_id_val.

(** [withdraw_money(p_customer_id, p_amount, p_description)] *)
Definition withdraw_money (p_customer_id : Z) (p_amount : numeric)
    (p_description : option string) : M Z :=
  when_ (le0 p_amount) (throw (raise_exception "Amount must be positive"));;
  let* current_balance := select_balance p_customer_id in
  match current_balance with
  | None => throw (raise_exception "Customer not found")
  | Some b =>
      when_ (money_ltb b p_amount) (throw (raise_exception "Insufficient balance"));;
      update_balance (fun b => sub_money b p_amount) p_customer_id;;
      let* transaction_id_val :=
        insert_transaction p_customer_id None p_amount withdrawal completed p_description in
      ret transaction_id_val
  end.

End Schema.

(** ** config/database.js *)

Module Database.

(** COMMIT releases the row locks. *)
Definition commit (s : State) : State := set_row_locks [] s.

(** ROLLBACK restores the tables as they were at BEGIN and releases the
    row locks; a sequence does not go back. *)
Definition rollback (s0 s : State) : State :=
  mk_state (BankUser s0) (Transactions s0) (transaction_id_seq s) [] (clock s).

(** [database.transaction(callback)]: BEGIN on a client of the pool,
    which holds no lock; COMMIT when the callback returns, ROLLBACK and
    rethrow when it throws. *)
Definition transaction {A} (callback : M A) : M A :=
  fun s =>
    match callback (set_row_locks [] s) with
    | (Ok a, s') => (Ok a, commit s')
    | (Throw e, s') => (Throw e, rollback s s')
    end.

End Database.

(** ** models/bankUserModel.js *)

Module BankUserModel.

(** A row with its key, as [SELECT customer_id, name, email, balance ...]
    returns it. *)
Record user := mk_found { customer_id : Z; row : BankUserRow }.

(** [findById(customerId)]: [result.rows[0] || null]. *)
Definition findById (customerId : Z) : M (option user) :=
  fun s => (Ok (mk_found customerId <$> BankUser s !! customerId), s).

(** [getBalance(customerId)] *)
Definition getBalance (customerId : Z) : M Z :=
  fun s =>
    match BankUser s !! customerId with
    | None => (Throw (Error "User not found"), s)
    | Some u => (Ok (balance u), s)
    end.

End BankUserModel.

(** ** models/transactionModel.js *)

Module TransactionModel.

(** A row of [Transactions] LEFT JOINed with the names of both parties. *)
Record details := mk_details {
  entry : TransactionRow;
  from_customer_name : option string;
  to_customer_name : option string
}.

Definition join (s : State) (t : TransactionRow) : details :=
  mk_details t
    (name <$> BankUser s !! from_customer_id t)
    (to_customer_id t ≫= fun c => name <$> BankUser s !! c).

(** [SELECT t.*, fu.name, tu.name FROM Transactions t LEFT JOIN ...
    WHERE t.transaction_id = $1], first row. *)
Definition details_query (transactionId : Z) : M (option details) :=
  fun s =>
    (Ok (join s <$> List.find (fun t => transaction_id t =? transactionId) (Transactions s)), s).

(** [findById(transactionId)] *)
Definition findById (transactionId : Z) : M (option details) :=
  details_query transactionId.

(** [executeTransfer(fromCustomerId, toCustomerId, amount, description)] *)
Definition executeTransfer_callback (fromCustomerId toCustomerId : Z) (amount : numeric)
    (description : string) : M (option details) :=
  let* valid := Schema.validate_transfer fromCustomerId (Some toCustomerId) amount in
  when_ (negb valid) (throw (Error "Invalid transfer"));;
  let* transactionId :=
    Schema.execute_transfer fromCustomerId (Some toCustomerId) amount (Some description) in
  let* transaction := details_query transactionId in
  ret transaction.

Definition executeTransfer (fromCustomerId toCustomerId : Z) (amount : numeric)
    (description : string) : M (option details) :=
  Database.transaction (executeTransfer_callback fromCustomerId toCustomerId amount description).

(** [executeDeposit(customerId, amount, description)] *)
Definition executeDeposit (customerId : Z) (amount : numeric) (description : string)
    : M (option details) :=
  Database.transaction (
    let* transactionId := Schema.deposit_money customerId amount (Some description) in
    let* transaction := details_query transactionId in
    ret transaction).

(** [executeWithdrawal(customerId, amount, description)] *)
Definition executeWithdrawal (customerId : Z) (amount : numeric) (description : string)
    : M (option details) :=
  Database.transaction (
    let* transactionId := Schema.withdraw_money customerId amount (Some description) in
    let* transaction := details_query transactionId in
    ret transaction).

(** The query options of [getUserTransactions]; an absent filter is
    [None]. *)
Record options := mk_options {
  limit : Z;
  offset : Z;
  opt_transaction_type : option transaction_type;
  opt_status : option transaction_status;
  start_date : option Z;
  end_date : option Z
}.

(** The WHERE clause: the customer is a party, and the optional
    filters. *)
Definition matches (customerId : Z) (o : options) (t : TransactionRow) : bool :=
  (bool_decide (from_customer_id t = customerId)
   || bool_decide (to_customer_id t = Some customerId))
  && match opt_transaction_type o with
     | Some ty => bool_decide (transaction_type_of t = ty)
     | None => true
     end
  && match opt_status o with
     | Some st => bool_decide (status t = st)
     | None => true
     end
  && match start_date o with
     | Some d => d <=? transaction_date t
     | None => true
     end
  && match end_date o with
     | Some d => transaction_date t <=? d
     | None => true
     end.

(** ORDER BY transaction_date DESC.  PostgreSQL leaves the order of rows
    of one date open; here they stay in table order. *)
Fixpoint insert_desc (t : TransactionRow) (l : list TransactionRow) : list TransactionRow :=
  match l with
  | [] => [t]
  | u :: l' =>
      if transaction_date u <=? transaction_date t then t :: l
      else u :: insert_desc t l'
  end.

Definition order_by_date_desc (l : list TransactionRow) : list TransactionRow :=
  foldr insert_desc [] l.

(** LIMIT and OFFSET. *)
Definition limit_offset {A} (lim off : Z) (l : list A) : list A :=
  take (Z.to_nat lim) (drop (Z.to_nat off) l).

(** [getUserTransactions(customerId, options)] *)
Definition getUserTransactions (customerId : Z) (o : options) : M (list details) :=
  fun s =>
    (Ok (join s <$>
           limit_offset (limit o) (offset o)
             (order_by_date_desc (List.filter (matches customerId o) (Transactions s)))), s).

(** [getUserTransactionCount(customerId, options)] *)
Definition getUserTransactionCount (customerId : Z) (o : options) : M Z :=
  fun s => (Ok (Z.of_nat (length (List.filter (matches customerId o) (Transactions s)))), s).

(** The customer is a party of the row: [from_customer_id = $1 OR
    to_customer_id = $1]. *)
Definition involves (customerId : Z) (t : TransactionRow) : bool :=
  bool_decide (from_customer_id t = customerId)
  || bool_decide (to_customer_id t = Some customerId).

(** [getRecentTransactions(customerId, limit)] *)
Definition getRecentTransactions (customerId : Z) (limit : Z) : M (list details) :=
  fun s =>
    (Ok (join s <$>
           take (Z.to_nat limit)
             (order_by_date_desc (List.filter (involves customerId) (Transactions s)))), s).

(** [SUM(CASE WHEN p THEN amount ELSE 0 END)], 0 over no rows. *)
Definition sum_where (p : TransactionRow -> bool) (l : list TransactionRow) : Z :=
  foldr (fun t acc => (if p t then amount t else 0) + acc) 0 l.

Record statistics := mk_statistics {
  total_transactions : Z;
  total_deposits : Z;
  total_withdrawals : Z;
  total_sent : Z;
  total_received : Z;
  net_transfers : Z
}.

Definition is_type (ty : transaction_type) (t : TransactionRow) : bool :=
  bool_decide (transaction_type_of t = ty).

(** [getUserTransactionStatistics(customerId, startDate, endDate)] *)
Definition getUserTransactionStatistics (customerId : Z) (startDate endDate : option Z)
    : M statistics :=
  fun s =>
    let rows :=
      List.filter
        (fun t =>
           involves customerId t
           && match startDate with
              | Some d => d <=? transaction_date t
              | None => true
              end
           && match endDate with
              | Some d => transaction_date t <=? d
              | None => true
              end)
        (Transactions s) in
    let sent :=
      sum_where (fun t => is_type transfer t && bool_decide (from_customer_id t = customerId))
        rows in
    let received :=
      sum_where (fun t => is_type transfer t && bool_decide (to_customer_id t = Some customerId))
        rows in
    (Ok (mk_statistics (Z.of_nat (length rows))
           (sum_where (is_type deposit) rows)
           (sum_where (is_type withdrawal) rows)
           sent received (sent - received)), s).

Definition set_status (st : transaction_status) (t : TransactionRow) : TransactionRow :=
  mk_transaction (transaction_id t) (from_customer_id t) (to_customer_id t) (amount t)
    (transaction_type_of t) (transaction_date t) st (description t).

(** [updateStatus(transactionId, newStatus)]: one UPDATE ... RETURNING
    statement, and the test for an empty result.  [newStatus] ranges over
    the three values that [chk_transaction_status] admits; what the
    database does with any other value is outside the model. *)
Definition updateStatus (transactionId : Z) (newStatus : transaction_status)
    : M TransactionRow :=
  fun s =>
    match List.find (fun t => transaction_id t =? transactionId) (Transactions s) with
    | None => (Throw (Error "Transaction not found"), s)
    | Some t =>
        (Ok (set_status newStatus t),
         mk_state (BankUser s)
           ((fun r => if transaction_id r =? transactionId then set_status newStatus r else r)
              <$> Transactions s)
           (transaction_id_seq s) (row_locks s) (clock s))
    end.

(** [getFailedTransactions(limit)] *)
Definition getFailedTransactions (limit : Z) : M (list details) :=
  fun s =>
    (Ok (join s <$>
           take (Z.to_nat limit)
             (order_by_date_desc
                (List.filter (fun t => bool_decide (status t = failed)) (Transactions s)))), s).


End TransactionModel.

(** ** services/bankService.js *)

Module BankService.

(** An [amount] of a request body: absent, a JSON number, or a string
    holding a decimal literal. *)
Inductive js_amount :=
| Missing
| Num (d : numeric)
| Str (d : numeric).

(** [!amount] is false for a non-zero number and for a non-empty
    string. *)
Definition falsy_amount (a : js_amount) : bool :=
  match a with
  | Missing => true
  | Num d => digits d =? 0
  | Str _ => false
  end.

(** [parseFloat(amount)]; [None] is NaN. *)
Definition parseFloat (a : js_amount) : option numeric :=
  match a with
  | Missing => None
  | Num d | Str d => Some (normalize d)
  end.

(** The length of [amount.toString().split('.')[1]], 0 when there is no
    such part. *)
Definition decimalPlaces (a : js_amount) : nat :=
  match a with
  | Missing => O
  | Num d => scale (normalize d)
  | Str d => scale d
  end.

(** [!customerId] on a number. *)
Definition falsy_id (id : Z) : bool := id =? 0.

(** [description || fallback] *)
Definition or_default (description : option string) (fallback : string) : string :=
  match description with
  | Some d => if bool_decide (d = "") then fallback else d
  | None => fallback
  end.

(** *** getBalance *)

Record balance_data := mk_balance_data {
  bd_customer_id : Z;
  bd_name : string;
  bd_balance : Z;
  last_updated : Z
}.

Definition getBalance (customerId : Z) : M balance_data :=
  when_ (falsy_id customerId) (throw (Error "Customer ID is required"));;
  let* user := BankUserModel.findById customerId in
  match user with
  | None => throw (Error "User not found")
  | Some user =>
      let* balance := BankUserModel.getBalance customerId in
      fun s =>
        (Ok (mk_balance_data (BankUserModel.customer_id user)
               (name (BankUserModel.row user)) balance (clock s)), s)
  end.

(** *** transferMoney *)

(** [to_customer_id] is absent or a JSON integer. *)
Record transfer_data := mk_transfer_data {
  td_to_customer_id : option Z;
  td_amount : js_amount;
  td_description : option string
}.

Record receipt := mk_receipt {
  r_transaction_id : Z;
  r_from_customer_id : Z;
  r_to_customer_id : option Z;
  r_amount : Z;
  r_new_balance : Z;
  r_transaction_date : Z;
  r_description : option string
}.

Definition receipt_of (transaction : option TransactionModel.details) (newBalance : Z)
    : M receipt :=
  match transaction with
  | None => throw (TypeError "Cannot read properties of undefined")
  | Some t =>
      let e := TransactionModel.entry t in
      ret (mk_receipt (transaction_id e) (from_customer_id e) (to_customer_id e)
             (amount e) newBalance (transaction_date e) (description e))
  end.

(** The input validation and the advisory checks, up to the balance
    check; returns [toCustomerId] and [transferAmount]. *)
Definition transferMoney_checks (customerId : Z) (transferData : transfer_data)
    : M (Z * numeric) :=
  let amount := td_amount transferData in
  match td_to_customer_id transferData with
  | None => throw (Error "Recipient customer ID and amount are required")
  | Some to_customer_id =>
      when_ (falsy_id to_customer_id || falsy_amount amount)
        (throw (Error "Recipient customer ID and amount are required"));;
      when_ (to_customer_id <? 0)
        (throw (Error "Recipient customer ID must be a number"));;
      match parseFloat amount with
      | None => throw (Error "Amount must be a positive number")
      | Some transferAmount =>
          when_ (le0 transferAmount) (throw (Error "Amount must be a positive number"));;
          when_ (gtb_int transferAmount 10000)
            (throw (Error "Maximum transfer amount is ₹10,000"));;
          when_ (bool_decide (2 < decimalPlaces amount)%nat)
            (throw (Error "Amount can have maximum 2 decimal places"));;
          let toCustomerId := to_customer_id in
          when_ (bool_decide (customerId = toCustomerId))
            (throw (Error "Cannot transfer to yourself"));;
          let* sender := BankUserModel.findById customerId in
          when_ (bool_decide (sender = None)) (throw (Error "Sender account not found"));;
          let* recipient := BankUserModel.findById toCustomerId in
          when_ (bool_decide (recipient = None)) (throw (Error "Recipient not found"));;
          let* senderBalance := BankUserModel.getBalance customerId in
          when_ (money_ltb senderBalance transferAmount)
            (throw (Error "Insufficient balance"));;
          ret (toCustomerId, transferAmount)
      end
  end.

(** The transfer itself and the reply. *)
Definition transferMoney_execute (customerId toCustomerId : Z) (transferAmount : numeric)
    (description : option string) : M receipt :=
  let* transaction :=
    TransactionModel.executeTransfer customerId toCustomerId transferAmount
      (or_default description "Money transfer") in
  let* newBalance := BankUserModel.getBalance customerId in
  receipt_of transaction newBalance.

Definition transferMoney (customerId : Z) (transferData : transfer_data) : M receipt :=
  let* checked := transferMoney_checks customerId transferData in
  transferMoney_execute customerId (fst checked) (snd checked) (td_description transferData).

(** *** depositMoney and withdrawMoney *)

Record amount_data := mk_amount_data {
  ad_amount : js_amount;
  ad_description : option string
}.

Definition depositMoney (customerId : Z) (depositData : amount_data) : M receipt :=
  let amount := ad_amount depositData in
  when_ (falsy_amount amount) (throw (Error "Amount is required"));;
  match parseFloat amount with
  | None => throw (Error "Amount must be a positive number")
  | Some depositAmount =>
      when_ (le0 depositAmount) (throw (Error "Amount must be a positive number"));;
      when_ (gtb_int depositAmount 50000)
        (throw (Error "Maximum deposit amount is ₹50,000"));;
      let* user := BankUserModel.findById customerId in
      when_ (bool_decide (user = None)) (throw (Error "User not found"));;
      let* transaction :=
        TransactionModel.executeDeposit customerId depositAmount
          (or_default (ad_description depositData) "Deposit") in
      let* newBalance := BankUserModel.getBalance customerId in
      receipt_of transaction newBalance
  end.

Definition withdrawMoney (customerId : Z) (withdrawalData : amount_data) : M receipt :=
  let amount := ad_amount withdrawalData in
  when_ (falsy_amount amount) (throw (Error "Amount is required"));;
  match parseFloat amount with
  | None => throw (Error "Amount must be a positive number")
  | Some withdrawalAmount =>
      when_ (le0 withdrawalAmount) (throw (Error "Amount must be a positive number"));;
      when_ (gtb_int withdrawalAmount 25000)
        (throw (Error "Maximum withdrawal amount is ₹25,000"));;
      let* user := BankUserModel.findById customerId in
      when_ (bool_decide (user = None)) (throw (Error "User not found"));;
      let* currentBalance := BankUserModel.getBalance customerId in
      when_ (money_ltb currentBalance withdrawalAmount)
        (throw (Error "Insufficient balance"));;
      let* transaction :=
        TransactionModel.executeWithdrawal customerId withdrawalAmount
          (or_default (ad_description withdrawalData) "Withdrawal") in
      let* newBalance := BankUserModel.getBalance customerId in
      receipt_of transaction newBalance
  end.

(** *** getTransactionHistory *)

(** The options as the controller passes them: [limit] and [offset] are
    results of [parseInt] ([None] is NaN), the filters are strings, the
    dates are timestamps. *)
Record history_options := mk_history_options {
  ho_limit : option Z;
  ho_offset : option Z;
  ho_transaction_type : option string;
  ho_status : option string;
  ho_start_date : option Z;
  ho_end_date : option Z
}.

Definition transaction_type_of_string (x : string) : option transaction_type :=
  if bool_decide (x = "transfer") then Some transfer
  else if bool_decide (x = "deposit") then Some deposit
  else if bool_decide (x = "withdrawal") then Some withdrawal
  else None.

Definition status_of_string (x : string) : option transaction_status :=
  if bool_decide (x = "completed") then Some completed
  else if bool_decide (x = "pending") then Some pending
  else if bool_decide (x = "failed") then Some failed
  else None.

(** A filter given as a string: absent and empty strings are falsy. *)
Definition parse_filter {A} (parse : string -> option A) (invalid : string)
    (x : option string) : M (option A) :=
  match x with
  | None => ret None
  | Some str =>
      if bool_decide (str = "") then ret None
      else match parse str with
           | Some v => ret (Some v)
           | None => throw (Error invalid)
           end
  end.

Record pagination := mk_pagination {
  p_limit : Z;
  p_offset : Z;
  p_total : Z;
  has_more : bool
}.

Record history := mk_history {
  transactions : list TransactionModel.details;
  pagination_of : pagination
}.

Definition getTransactionHistory (customerId : Z) (o : history_options) : M history :=
  when_ (falsy_id customerId) (throw (Error "Customer ID is required"));;
  match ho_limit o with
  | None => throw (Error "Limit must be between 1 and 100")
  | Some parsedLimit =>
      when_ ((parsedLimit <=? 0) || (100 <? parsedLimit))
        (throw (Error "Limit must be between 1 and 100"));;
      match ho_offset o with
      | None => throw (Error "Offset must be a non-negative number")
      | Some parsedOffset =>
          when_ (parsedOffset <? 0) (throw (Error "Offset must be a non-negative number"));;
          let* transaction_type :=
            parse_filter transaction_type_of_string "Invalid transaction type"
              (ho_transaction_type o) in
          let* status :=
            parse_filter status_of_string "Invalid transaction status" (ho_status o) in
          let opts :=
            TransactionModel.mk_options parsedLimit parsedOffset transaction_type status
              (ho_start_date o) (ho_end_date o) in
          let* transactions := TransactionModel.getUserTransactions customerId opts in
          let* totalCount := TransactionModel.getUserTransactionCount customerId opts in
          ret (mk_history transactions
                 (mk_pagination parsedLimit parsedOffset totalCount
                    (parsedOffset + parsedLimit <? totalCount)))
      end
  end.

(** *** getTransactionDetails *)

Definition getTransactionDetails (customerId transactionId : Z)
    : M TransactionModel.details :=
  when_ (falsy_id customerId || falsy_id transactionId)
    (throw (Error "Customer ID and transaction ID are required"));;
  let* transaction := TransactionModel.findById transactionId in
  match transaction with
  | None => throw (Error "Transaction not found")
  | Some transaction =>
      let e := TransactionModel.entry transaction in
      when_ (bool_decide (from_customer_id e ≠ customerId)
             && bool_decide (to_customer_id e ≠ Some customerId))
        (throw (Error "Access denied: Transaction does not belong to this user"));;
      ret transaction
  end.

(** *** getRecentTransactions *)

(** [limit] is what the caller passes to [parseInt]; [None] is NaN. *)
Definition getRecentTransactions (customerId : Z) (limit : option Z)
    : M (list TransactionModel.details) :=
  when_ (falsy_id customerId) (throw (Error "Customer ID is required"));;
  match limit with
  | None => throw (Error "Limit must be between 1 and 20")
  | Some parsedLimit =>
      when_ ((parsedLimit <=? 0) || (20 <? parsedLimit))
        (throw (Error "Limit must be between 1 and 20"));;
      let* transactions := TransactionModel.getRecentTransactions customerId parsedLimit in
      ret transactions
  end.

(** *** validateTransfer *)




End BankService.

(** ** middleware/errorHandler.js *)

Module ErrorHandler.

(** [s.includes(sub)] *)
Fixpoint includes (s sub : string) : bool :=
  String.prefix sub s
  || match s with
     | EmptyString => false
     | String _ s' => includes s' sub
     end.

Record response := mk_response {
  statusCode : Z;
  response_message : string;
  errorCode : string
}.

Definition has_code (err : error) (c : string) : bool := bool_decide (code err = Some c).

(** The dispatch on [err.code] and [err.message].  The branches on
    [err.name] and [err.type] are left out: the errors of the ledger are
    plain [Error]s and PostgreSQL errors, which carry neither a name the
    handler knows nor a type.  The branch for a transfer to oneself sets
    the status and the message only (its last statement is a label, not
    an assignment), so the code stays INTERNAL_ERROR. *)
Definition classify (err : error) : response :=
  let msg := message err in
  if has_code err "23505" then mk_response 409 "Resource already exists" "DUPLICATE_RESOURCE"
  else if has_code err "23503" then mk_response 400 "Invalid reference" "INVALID_REFERENCE"
  else if has_code err "23502" then mk_response 400 "Required field missing" "REQUIRED_FIELD_MISSING"
  else if has_code err "22003" then mk_response 400 "Value out of range" "VALUE_OUT_OF_RANGE"
  else if has_code err "22001" then mk_response 400 "Data too long" "DATA_TOO_LONG"
  else if includes msg "Email already exists"
  then mk_response 409 "Email already registered" "EMAIL_EXISTS"
  else if includes msg "Invalid email or password"
  then mk_response 401 "Invalid credentials" "INVALID_CREDENTIALS"
  else if includes msg "User not found" then mk_response 404 "User not found" "USER_NOT_FOUND"
  else if includes msg "Insufficient balance"
  then mk_response 400 "Insufficient balance" "INSUFFICIENT_BALANCE"
  else if includes msg "Invalid transfer"
  then mk_response 400 "Invalid transfer" "INVALID_TRANSFER"
  else if includes msg "Recipient not found"
  then mk_response 404 "Recipient not found" "RECIPIENT_NOT_FOUND"
  else if includes msg "Cannot transfer to yourself"
  then mk_response 400 "Cannot transfer to yourself" "INTERNAL_ERROR"
  else if includes msg "Transaction not found"
  then mk_response 404 "Transaction not found" "TRANSACTION_NOT_FOUND"
  else if includes msg "Access denied" then mk_response 403 "Access denied" "ACCESS_DENIED"
  else if includes msg "Token" then mk_response 401 "Authentication error" "TOKEN_ERROR"
  else if includes msg "Password" then mk_response 400 "Password error" "PASSWORD_ERROR"
  else mk_response 500 "Internal Server Error" "INTERNAL_ERROR".

Definition errorHandler (err : error) : response :=
  if has_code err "ECONNREFUSED"
  then mk_response 503 "Database connection failed" "DATABASE_CONNECTION_ERROR"
  else if has_code err "ETIMEDOUT"
  then mk_response 503 "Database connection timeout" "DATABASE_TIMEOUT"
  else classify err.

End ErrorHandler.

(** ** middleware/authMiddleware.js *)

Module AuthMiddleware.

(** One request through [rateLimit(maxRequests, windowMs)]: [requests] is
    the Map from client key to the times of its counted requests, [now] is
    [Date.now()].  The result is [true] when [next()] is called and
    [false] when the reply is 429. *)
Definition rateLimit (maxRequests windowMs : Z) (requests : gmap string (list Z))
    (key : string) (now : Z) : bool * gmap string (list Z) :=
  let windowStart := now - windowMs in
  let requests1 :=
    match requests !! key with
    | Some times => <[key := List.filter (fun time => windowStart <? time) times]> requests
    | None => requests
    end in
  let userRequests := default [] (requests1 !! key) in
  if maxRequests <=? Z.of_nat (length userRequests) then (false, requests1)
  else (true, <[key := (userRequests ++ [now])%list]> requests1).

End AuthMiddleware.

(** ** The error kinds of the specification *)

(** The kinds the specification names for the failures of the ledger, and
    [InvalidTransfer] for the one refusal of the code that has no kind of
    its own there. *)
Inductive error_kind :=
| InvalidAmount
| LimitExceeded
| SelfTransferNotAllowed
| AccountNotFound
| InsufficientFunds
| NotFound
| AccessDenied
| InvalidTransfer
| Unclassified.

#[global] Instance error_kind_eq_dec : EqDecision error_kind.
Proof. solve_decision. Defined.

Definition one_of (msg : string) (l : list string) : bool := bool_decide (msg ∈ l).

(** The kind a thrown error stands for, read off its message. *)
Definition kind_of (e : error) : error_kind :=
  let msg := message e in
  if one_of msg ["Amount is required"; "Amount must be a positive number";
                 "Amount must be positive"; "Amount can have maximum 2 decimal places"]
  then InvalidAmount
  else if one_of msg ["Maximum transfer amount is ₹10,000";
                      "Maximum deposit amount is ₹50,000";
                      "Maximum withdrawal amount is ₹25,000"]
  then LimitExceeded
  else if one_of msg ["Cannot transfer to yourself"] then SelfTransferNotAllowed
  else if one_of msg ["Sender account not found"; "Recipient not found";
                      "User not found"; "Customer not found"]
  then AccountNotFound
  else if one_of msg ["Insufficient balance"] then InsufficientFunds
  else if one_of msg ["Transaction not found"] then NotFound
  else if one_of msg ["Access denied: Transaction does not belong to this user"]
  then AccessDenied
  else if one_of msg ["Invalid transfer"] then InvalidTransfer
  else Unclassified.

(** ** Sequences of operations *)

(** A call of the ledger, or the passing of time. *)
Inductive operation :=
| Transfer (customerId : Z) (data : BankService.transfer_data)
| Deposit (customerId : Z) (data : BankService.amount_data)
| Withdraw (customerId : Z) (data : BankService.amount_data)
| Tick (t : Z).

Definition run_op (o : operation) (s : State) : State :=
  match o with
  | Transfer c d => snd (BankService.transferMoney c d s)
  | Deposit c d => snd (BankService.depositMoney c d s)
  | Withdraw c d => snd (BankService.withdrawMoney c d s)
  | Tick t => set_clock t s
  end.

(** The states after each operation of a sequence, in order. *)
Fixpoint states (ops : list operation) (s : State) : list State :=
  match ops with
  | [] => []
  | o :: ops' => let s' := run_op o s in s' :: states ops' s'
  end.

Definition run (ops : list operation) (s : State) : State :=
  foldl (fun s o => run_op o s) s ops.



Definition balance_of (s : State) (id : Z) : option Z := balance <$> BankUser s !! id.

(** The balance of the account [a], if there is such an account, is at
    least zero. *)
Definition non_negative (a : Z) (s : State) : Prop :=
  match balance_of s a with
  | Some b => 0 <= b
  | None => True
  end.

(** An operation changed neither table. *)
Definition same_tables (s s' : State) : Prop :=
  BankUser s' = BankUser s /\ Transactions s' = Transactions s.

(** ** Further notions used in the statements *)

(** The requests of a list, in order, through one rate limiter: the
    decision for each, and the Map at the end. *)
Fixpoint serve (maxRequests windowMs : Z) (requests : gmap string (list Z))
    (calls : list (string * Z)) : list bool * gmap string (list Z) :=
  match calls with
  | [] => ([], requests)
  | (key, now) :: calls' =>
      let '(ok, requests') := AuthMiddleware.rateLimit maxRequests windowMs requests key now in
      let '(oks, requests'') := serve maxRequests windowMs requests' calls' in
      (ok :: oks, requests'')
  end.

(** The times of the requests of [key] that were let through. *)
Fixpoint let_through (key : string) (calls : list (string * Z)) (oks : list bool) : list Z :=
  match calls, oks with
  | (k, now) :: calls', ok :: oks' =>
      if ok && bool_decide (k = key) then now :: let_through key calls' oks'
      else let_through key calls' oks'
  | _, _ => []
  end.

(** The ids a list of rows carries run upwards from [n] and stay below
    [m]. *)
Fixpoint ids_between (n : Z) (l : list TransactionRow) (m : Z) : Prop :=
  match l with
  | [] => n <= m
  | e :: l' => n <= transaction_id e /\ ids_between (transaction_id e + 1) l' m
  end.

(** From [s] to [s'] the ledger only grew: the old rows are there as they
    were, the new rows are completed, of positive amount, and carry ids
    the sequence handed out in between. *)
Definition ledger_grows (s s' : State) : Prop :=
  exists l,
    Transactions s' = (Transactions s ++ l)%list
    /\ Forall (fun e => 0 < amount e /\ status e = completed) l
    /\ ids_between (transaction_id_seq s) l (transaction_id_seq s').

(** Every row has an id below the next value of the sequence, and no two
    rows share an id. *)
Definition ids_fresh (s : State) : Prop :=
  Forall (fun e => transaction_id e < transaction_id_seq s) (Transactions s)
  /\ NoDup (transaction_id <$> Transactions s).

(** A step relates the state before to the state after. *)
Definition steps {A} (R : State -> State -> Prop) (m : M A) : Prop :=
  forall s, R s (snd (m s)).


(** What the ledger says the account should hold beyond its opening
    balance: deposits less withdrawals less net transfers out, from
    [getUserTransactionStatistics] over all dates. *)
Definition ledger_balance (a : Z) (s : State) : Z :=
  match fst (TransactionModel.getUserTransactionStatistics a None None s) with
  | Ok st =>
      TransactionModel.total_deposits st - TransactionModel.total_withdrawals st
      - TransactionModel.net_transfers st
  | Throw _ => 0
  end.

(** A step keeps a property of the state. *)
Definition preserves {A} (P : State -> Prop) (m : M A) : Prop :=
  forall s, P s -> P (snd (m s)).

(** * Properties *)

(** ** Decimals *)

Section numeric_facts.

Lemma pow10_pos n : 0 < pow10 n.
Proof. unfold pow10. apply Z.pow_pos_nonneg; lia. Qed.

Lemma round_div_0 x : round_div x 0 = x.
Proof.
  unfold round_div, pow10. change (10 ^ Z.of_nat 0) with 1.
  destruct (0 <=? x) eqn:E.
  - symmetry. apply (Z.div_unique_pos _ _ x 1); lia.
  - apply Z.leb_gt in E.
    rewrite <- (Z.div_unique_pos (2 * - x + 1) (2 * 1) (- x) 1); lia.
Qed.

Lemma round_div_nonneg x k : 0 <= x -> 0 <= round_div x k.
Proof.
  intros Hx. unfold round_div. pose proof (pow10_pos k) as Hp.
  destruct (0 <=? x) eqn:E; [|lia].
  apply Z.div_pos; lia.
Qed.

(** With at most two decimal places nothing is rounded. *)
Context (d : numeric) (Hd : (scale d <= 2)%nat).

Lemma scale_minus_2 : (scale d - 2)%nat = O.
Proof. lia. Qed.

Lemma to_money_exact : to_money d = digits_at d.
Proof. unfold to_money. rewrite scale_minus_2. apply round_div_0. Qed.

Lemma add_money_exact c : add_money c d = c + to_money d.
Proof.
  rewrite to_money_exact. unfold add_money, money_at. rewrite scale_minus_2, round_div_0.
  unfold pow10. simpl. lia.
Qed.

Lemma sub_money_exact c : sub_money c d = c - to_money d.
Proof.
  rewrite to_money_exact. unfold sub_money, money_at. rewrite scale_minus_2, round_div_0.
  unfold pow10. simpl. lia.
Qed.

End numeric_facts.

Lemma strip_zeros_scale n m : (scale (strip_zeros n m) <= n)%nat.
Proof.
  revert m. induction n as [|n IH]; intros m; simpl; [lia|].
  destruct (m mod 10 =? 0); simpl; [|lia].
  specialize (IH (m / 10)). lia.
Qed.

Lemma normalize_scale d : (scale (normalize d) <= scale d)%nat.
Proof. apply strip_zeros_scale. Qed.

(** Subtracting what the balance covers leaves a balance of at least
    zero, whatever the rounding. *)
Lemma sub_money_nonneg c d : money_ltb c d = false -> 0 <= sub_money c d.
Proof.
  unfold money_ltb, sub_money. intros H. apply Z.ltb_ge in H.
  apply round_div_nonneg. lia.
Qed.

(** ** Steps that keep a property of the state *)

Section preserves.

Context (P : State -> Prop).

Lemma preserves_ret {A} (a : A) : preserves P (ret a).
Proof. intros s Hs. exact Hs. Qed.

Lemma preserves_throw {A} (e : error) : preserves P (@throw A e).
Proof. intros s Hs. exact Hs. Qed.

Lemma preserves_bind {A B} (m : M A) (k : A -> M B) :
  preserves P m -> (forall a, preserves P (k a)) -> preserves P (bind m k).
Proof.
  intros Hm Hk s Hs. unfold bind. specialize (Hm s Hs).
  destruct (m s) as [[a|e] s1]; simpl in *; [by apply Hk | done].
Qed.

Lemma preserves_when b (m : M unit) : preserves P m -> preserves P (when_ b m).
Proof. intros Hm. destruct b; simpl; [done | apply preserves_ret]. Qed.

End preserves.

Create HintDb preserves.
#[local] Hint Resolve preserves_ret preserves_throw preserves_when : preserves.

Ltac preserves_step :=
  first
    [ apply preserves_bind; [| intros ?]
    | apply preserves_when
    | apply preserves_ret
    | apply preserves_throw ].

(** *** Steps that read only *)

Lemma read_only_preserves {A} (P : State -> Prop) (m : M A) :
  (forall s, snd (m s) = s) -> preserves P m.
Proof. intros H s Hs. by rewrite H. Qed.

Lemma validate_transfer_state from to amt s : snd (Schema.validate_transfer from to amt s) = s.
Proof.
  unfold Schema.validate_transfer, bind, Schema.user_exists, Schema.select_balance, ret.
  repeat (case_match; simplify_eq/=); done.
Qed.

Lemma validate_transfer_preserves P from to amt :
  preserves P (Schema.validate_transfer from to amt).
Proof. apply read_only_preserves. intros s. apply validate_transfer_state. Qed.

Lemma user_exists_preserves P id : preserves P (Schema.user_exists id).
Proof. by apply read_only_preserves. Qed.

Lemma select_balance_preserves P id : preserves P (Schema.select_balance id).
Proof. by apply read_only_preserves. Qed.

Lemma details_query_preserves P id : preserves P (TransactionModel.details_query id).
Proof. by apply read_only_preserves. Qed.

Lemma findById_preserves P id : preserves P (BankUserModel.findById id).
Proof. by apply read_only_preserves. Qed.

Lemma getBalance_model_state id s : snd (BankUserModel.getBalance id s) = s.
Proof. unfold BankUserModel.getBalance. by destruct (BankUser s !! id). Qed.

Lemma getBalance_model_preserves P id : preserves P (BankUserModel.getBalance id).
Proof. apply read_only_preserves. intros s. apply getBalance_model_state. Qed.

Lemma receipt_of_state t b s : snd (BankService.receipt_of t b s) = s.
Proof. unfold BankService.receipt_of. by destruct t. Qed.

Lemma receipt_of_preserves P t b : preserves P (BankService.receipt_of t b).
Proof. apply read_only_preserves. intros s. apply receipt_of_state. Qed.

Lemma transferMoney_checks_state c d s : snd (BankService.transferMoney_checks c d s) = s.
Proof.
  unfold BankService.transferMoney_checks, bind, when_, throw, ret,
    BankUserModel.findById, BankUserModel.getBalance.
  repeat (case_match; simplify_eq/=); done.
Qed.

Lemma transferMoney_checks_preserves P c d :
  preserves P (BankService.transferMoney_checks c d).
Proof. apply read_only_preserves. intros s. apply transferMoney_checks_state. Qed.

#[local] Hint Resolve validate_transfer_preserves user_exists_preserves
  select_balance_preserves details_query_preserves findById_preserves
  getBalance_model_preserves receipt_of_preserves transferMoney_checks_preserves
  : preserves.

Ltac preserves_auto :=
  repeat first [ solve [auto with preserves] | preserves_step | case_match ].

Lemma lock_row_BankUser id s : BankUser (Schema.lock_row id s) = BankUser s.
Proof.
  unfold Schema.lock_row. destruct (BankUser s !! id); [|done].
  by destruct (bool_decide _).
Qed.

Lemma lock_row_Transactions id s : Transactions (Schema.lock_row id s) = Transactions s.
Proof.
  unfold Schema.lock_row. destruct (BankUser s !! id); [|done].
  by destruct (bool_decide _).
Qed.

Lemma lock_row_seq id s : transaction_id_seq (Schema.lock_row id s) = transaction_id_seq s.
Proof.
  unfold Schema.lock_row. destruct (BankUser s !! id); [|done].
  by destruct (bool_decide _).
Qed.

Lemma lock_row_clock id s : clock (Schema.lock_row id s) = clock s.
Proof.
  unfold Schema.lock_row. destruct (BankUser s !! id); [|done].
  by destruct (bool_decide _).
Qed.

(** *** The balance of an account stays at least zero *)

Section non_negative.

Context (a : Z).

Lemma non_negative_BankUser s s' :
  BankUser s' = BankUser s -> non_negative a s -> non_negative a s'.
Proof. unfold non_negative, balance_of. by intros ->. Qed.

(** The UPDATE either fails on a constraint and writes nothing, or
    stores a value that passed [chk_balance_non_negative]. *)
Lemma update_balance_non_negative f id :
  preserves (non_negative a) (Schema.update_balance f id).
Proof.
  intros s Hs. unfold Schema.update_balance.
  destruct (BankUser s !! id) as [u|] eqn:Hu; [|done].
  destruct (overflows _); simpl.
  { eapply non_negative_BankUser; [apply lock_row_BankUser | done]. }
  destruct (f (balance u) <? 0) eqn:Hneg; simpl.
  { eapply non_negative_BankUser; [apply lock_row_BankUser | done]. }
  apply Z.ltb_ge in Hneg. unfold non_negative, balance_of in *. simpl.
  rewrite lock_row_BankUser.
  destruct (decide (id = a)) as [->|Hne].
  - by rewrite lookup_insert_eq.
  - by rewrite lookup_insert_ne.
Qed.

Lemma insert_transaction_non_negative from to amt ty st d :
  preserves (non_negative a) (Schema.insert_transaction from to amt ty st d).
Proof.
  intros s Hs. unfold Schema.insert_transaction.
  repeat case_match; simpl; exact Hs.
Qed.

Lemma select_for_update_non_negative id :
  preserves (non_negative a) (Schema.select_balance_for_update id).
Proof. intros s Hs. simpl. eapply non_negative_BankUser; [apply lock_row_BankUser | done]. Qed.

#[local] Hint Resolve update_balance_non_negative insert_transaction_non_negative
  select_for_update_non_negative : preserves.

Lemma execute_transfer_non_negative from to amt d :
  preserves (non_negative a) (Schema.execute_transfer from to amt d).
Proof. unfold Schema.execute_transfer. preserves_auto. Qed.

Lemma deposit_money_non_negative id amt d :
  preserves (non_negative a) (Schema.deposit_money id amt d).
Proof. unfold Schema.deposit_money. preserves_auto. Qed.

Lemma withdraw_money_non_negative id amt d :
  preserves (non_negative a) (Schema.withdraw_money id amt d).
Proof. unfold Schema.withdraw_money. preserves_auto. Qed.

(** COMMIT keeps what the callback wrote, ROLLBACK brings the tables
    back. *)
Lemma transaction_non_negative {A} (callback : M A) :
  preserves (non_negative a) callback ->
  preserves (non_negative a) (Database.transaction callback).
Proof.
  intros Hc s Hs. unfold Database.transaction.
  specialize (Hc (set_row_locks [] s) Hs).
  destruct (callback _) as [[r|e] s']; simpl in *; done.
Qed.

#[local] Hint Resolve execute_transfer_non_negative deposit_money_non_negative
  withdraw_money_non_negative : preserves.

Lemma executeTransfer_non_negative from to amt d :
  preserves (non_negative a) (TransactionModel.executeTransfer from to amt d).
Proof.
  apply transaction_non_negative. unfold TransactionModel.executeTransfer_callback.
  preserves_auto.
Qed.

Lemma executeDeposit_non_negative id amt d :
  preserves (non_negative a) (TransactionModel.executeDeposit id amt d).
Proof. apply transaction_non_negative. preserves_auto. Qed.

Lemma executeWithdrawal_non_negative id amt d :
  preserves (non_negative a) (TransactionModel.executeWithdrawal id amt d).
Proof. apply transaction_non_negative. preserves_auto. Qed.

#[local] Hint Resolve executeTransfer_non_negative executeDeposit_non_negative
  executeWithdrawal_non_negative : preserves.

Lemma transferMoney_non_negative c d :
  preserves (non_negative a) (BankService.transferMoney c d).
Proof.
  unfold BankService.transferMoney, BankService.transferMoney_execute. preserves_auto.
Qed.

Lemma depositMoney_non_negative c d :
  preserves (non_negative a) (BankService.depositMoney c d).
Proof. unfold BankService.depositMoney. preserves_auto. Qed.

Lemma withdrawMoney_non_negative c d :
  preserves (non_negative a) (BankService.withdrawMoney c d).
Proof. unfold BankService.withdrawMoney. preserves_auto. Qed.

Lemma run_op_non_negative o s : non_negative a s -> non_negative a (run_op o s).
Proof.
  destruct o; simpl.
  - apply transferMoney_non_negative.
  - apply depositMoney_non_negative.
  - apply withdrawMoney_non_negative.
  - done.
Qed.

End non_negative.

(** C1.  For every account: when its balance is at least zero, then after
    each operation of any sequence of transfers, deposits and withdrawals
    by any customers (and clock ticks), committed or refused, its balance
    is again at least zero. *)
Theorem balance_never_negative (a : Z) (ops : list operation) (s : State) :
  non_negative a s -> Forall (non_negative a) (states ops s).
Proof.
  revert s. induction ops as [|o ops IH]; intros s Hs; simpl.
  - constructor.
  - constructor; [by apply run_op_non_negative|].
    apply IH. by apply run_op_non_negative.
Qed.

(** The procedure's own balance check comes first: a withdrawal never
    gets as far as violating [chk_balance_non_negative]. *)
Remark withdraw_money_check_in_time id amt d s e s' :
  Schema.withdraw_money id amt d s = (Throw e, s') ->
  e <> check_violation "chk_balance_non_negative".
Proof.
  unfold Schema.withdraw_money, bind, when_, throw, ret, Schema.select_balance,
    Schema.update_balance, Schema.insert_transaction.
  intros H.
  repeat (case_match; simplify_eq/=); try (intros [=]; fail).
  match goal with
  | Hz : balance <$> _ = Some ?z, Hb : BankUser _ !! _ = Some ?b |- _ =>
      rewrite Hb in Hz; simpl in Hz; injection Hz as <-
  end.
  match goal with
  | Hlt : money_ltb _ _ = false, Hneg : (sub_money _ _ <? 0) = true |- _ =>
      apply sub_money_nonneg in Hlt; apply Z.ltb_lt in Hneg; lia
  end.
Qed.

(** ** What a successful step did *)

Lemma bind_Ok {A B} (m : M A) (k : A -> M B) s b s' :
  bind m k s = (Ok b, s') -> exists a s1, m s = (Ok a, s1) /\ k a s1 = (Ok b, s').
Proof.
  unfold bind. destruct (m s) as [[a|e] s1]; [eauto | done].
Qed.

Lemma when_throw_Ok b e s u s' : when_ b (throw e) s = (Ok u, s') -> b = false /\ s' = s.
Proof. destruct b; simpl; [done | by intros [= _ ->]]. Qed.

(** [validate_transfer] reads only, and accepts exactly the transfers of
    an amount the sender's balance covers, between existing and different
    accounts. *)
Lemma validate_transfer_true from to amt s :
  Schema.validate_transfer from to amt s = (Ok true, s) <->
  (exists uf, BankUser s !! from = Some uf /\ money_ltb (balance uf) amt = false)
  /\ (forall t, to = Some t -> is_Some (BankUser s !! t) /\ t <> from).
Proof.
  unfold Schema.validate_transfer, bind, Schema.user_exists, Schema.select_balance, ret.
  cbn.
  destruct (BankUser s !! from) as [uf|] eqn:Hf; cbn.
  2:{ split; [intros [=] | intros [(? & [=] & _) _]]. }
  destruct to as [t|]; cbn.
  - destruct (BankUser s !! t) as [ut|] eqn:Ht; cbn.
    2:{ split; [intros [=] | intros [_ H]].
        destruct (H t eq_refl) as [[? Hx] _]. congruence. }
    rewrite Hf; cbn.
    destruct (money_ltb (balance uf) amt) eqn:Hlt; cbn.
    { split; [intros [=] | intros [(? & [= <-] & ?) _]; congruence]. }
    case_bool_decide as Heq; cbn.
    + split; [intros [=] | intros [_ H]]. destruct (H t eq_refl) as [_ ?]. congruence.
    + split; [|done]. intros _. split; [eauto|].
      intros t' [= <-]. split; [eauto | congruence].
  - rewrite Hf; cbn.
    destruct (money_ltb (balance uf) amt) eqn:Hlt; cbn.
    { split; [intros [=] | intros [(? & [= <-] & ?) _]; congruence]. }
    split; [|done]. intros _. split; [eauto | done].
Qed.

Lemma validate_transfer_run from to amt s :
  exists b, Schema.validate_transfer from to amt s = (Ok b, s).
Proof.
  unfold Schema.validate_transfer, bind, Schema.user_exists, Schema.select_balance, ret.
  repeat (case_match; simplify_eq/=); eauto.
Qed.

Lemma update_balance_Ok f id s u s' :
  Schema.update_balance f id s = (Ok u, s') ->
  Transactions s' = Transactions s /\ transaction_id_seq s' = transaction_id_seq s
  /\ clock s' = clock s
  /\ BankUser s' =
     match BankUser s !! id with
     | Some r => <[id := mk_user (name r) (email r) (f (balance r))]> (BankUser s)
     | None => BankUser s
     end
  /\ match BankUser s !! id with
     | Some r => 0 <= f (balance r) < MAX_MONEY
     | None => True
     end.
Proof.
  unfold Schema.update_balance.
  destruct (BankUser s !! id) as [r|]; [|by intros [= _ <-]].
  destruct (overflows _) eqn:Ho; [done|].
  destruct (_ <? 0) eqn:Hn; [done|].
  intros [= _ <-]. simpl.
  rewrite lock_row_BankUser, lock_row_Transactions, lock_row_seq, lock_row_clock.
  repeat split; try done.
  - by apply Z.ltb_ge.
  - unfold overflows in Ho. apply Z.leb_gt in Ho. lia.
Qed.

Lemma insert_transaction_Ok from to amt ty st d s tid s' :
  Schema.insert_transaction from to amt ty st d s = (Ok tid, s') ->
  tid = transaction_id_seq s
  /\ BankUser s' = BankUser s
  /\ Transactions s' =
     (Transactions s ++ [mk_transaction tid from to (to_money amt) ty (clock s) st d])%list
  /\ transaction_id_seq s' = transaction_id_seq s + 1
  /\ clock s' = clock s
  /\ 0 < to_money amt.
Proof.
  unfold Schema.insert_transaction.
  destruct (overflows _); [done|].
  destruct (_ <=? 0) eqn:Hp; [done|].
  destruct (negb _); [done|].
  destruct (match to with Some _ => _ | None => _ end); [done|].
  intros [= <- <-]. simpl. apply Z.leb_gt in Hp. done.
Qed.

(** A transfer between two accounts that [execute_transfer] completed. *)
Lemma execute_transfer_Ok from t amt d s tid s' :
  Schema.execute_transfer from (Some t) amt d s = (Ok tid, s') ->
  exists uf ut,
    from <> t
    /\ BankUser s !! from = Some uf
    /\ BankUser s !! t = Some ut
    /\ money_ltb (balance uf) amt = false
    /\ BankUser s' =
       <[t := mk_user (name ut) (email ut) (add_money (balance ut) amt)]>
         (<[from := mk_user (name uf) (email uf) (sub_money (balance uf) amt)]> (BankUser s))
    /\ Transactions s' =
       (Transactions s
          ++ [mk_transaction tid from (Some t) (to_money amt) transfer (clock s) completed d])%list
    /\ tid = transaction_id_seq s
    /\ transaction_id_seq s' = transaction_id_seq s + 1
    /\ clock s' = clock s.
Proof.
  unfold Schema.execute_transfer. intros H.
  apply bind_Ok in H as (fb & s1 & H1 & H).
  apply bind_Ok in H as (tb & s2 & H2 & H).
  apply bind_Ok in H as (valid & s3 & H3 & H).
  apply bind_Ok in H as (? & s4 & H4 & H).
  apply bind_Ok in H as (? & s5 & H5 & H).
  apply bind_Ok in H as (? & s6 & H6 & H).
  apply bind_Ok in H as (tid' & s7 & H7 & H).
  injection H as <- <-.
  injection H1 as _ <-. injection H2 as _ <-.
  destruct (validate_transfer_run from (Some t) amt
              (Schema.lock_row t (Schema.lock_row from s))) as [b Hb].
  rewrite Hb in H3. injection H3 as <- <-.
  apply when_throw_Ok in H4 as [Hv ->]. apply negb_false_iff in Hv. subst b.
  apply validate_transfer_true in Hb as [(uf & Hf & Hlt) Ht].
  destruct (Ht t eq_refl) as [[ut Hut] Hne].
  rewrite !lock_row_BankUser in Hf, Hut.
  apply update_balance_Ok in H5 as (HT5 & HS5 & HC5 & HB5 & _).
  apply update_balance_Ok in H6 as (HT6 & HS6 & HC6 & HB6 & _).
  apply insert_transaction_Ok in H7 as (-> & HB7 & HT7 & HS7 & HC7 & _).
  rewrite !lock_row_BankUser, Hf in HB5.
  rewrite HB5, lookup_insert_ne, Hut in HB6 by done.
  rewrite !lock_row_Transactions in HT5. rewrite !lock_row_seq in HS5.
  rewrite !lock_row_clock in HC5.
  exists uf, ut. repeat split; try congruence.
Qed.

(** ** The sum of the balances *)


Lemma transaction_Ok {A} (callback : M A) s a s' :
  Database.transaction callback s = (Ok a, s') ->
  exists s1, callback (set_row_locks [] s) = (Ok a, s1) /\ s' = Database.commit s1.
Proof.
  unfold Database.transaction.
  destruct (callback _) as [[a'|e] s1]; [|done].
  intros [= -> <-]. eauto.
Qed.

Lemma transaction_Throw {A} (callback : M A) s e s' :
  Database.transaction callback s = (Throw e, s') -> same_tables s s'.
Proof.
  unfold Database.transaction.
  destruct (callback _) as [[a'|e'] s1]; [done|].
  by intros [= _ <-].
Qed.

(** A transfer that [executeTransfer] committed. *)
Lemma executeTransfer_Ok from t amt d s r s' :
  TransactionModel.executeTransfer from t amt d s = (Ok r, s') ->
  exists uf ut,
    from <> t
    /\ BankUser s !! from = Some uf
    /\ BankUser s !! t = Some ut
    /\ money_ltb (balance uf) amt = false
    /\ BankUser s' =
       <[t := mk_user (name ut) (email ut) (add_money (balance ut) amt)]>
         (<[from := mk_user (name uf) (email uf) (sub_money (balance uf) amt)]> (BankUser s))
    /\ Transactions s' =
       (Transactions s
          ++ [mk_transaction (transaction_id_seq s) from (Some t) (to_money amt) transfer
                (clock s) completed (Some d)])%list
    /\ transaction_id_seq s' = transaction_id_seq s + 1
    /\ clock s' = clock s
    /\ row_locks s' = [].
Proof.
  unfold TransactionModel.executeTransfer. intros H.
  apply transaction_Ok in H as (s1 & H & ->).
  unfold TransactionModel.executeTransfer_callback in H.
  apply bind_Ok in H as (valid & s2 & H2 & H).
  apply bind_Ok in H as (? & s3 & H3 & H).
  apply bind_Ok in H as (tid & s4 & H4 & H).
  apply bind_Ok in H as (? & s5 & H5 & H).
  injection H as _ <-. injection H5 as _ <-.
  destruct (validate_transfer_run from (Some t) amt (set_row_locks [] s)) as [b Hb].
  rewrite Hb in H2. injection H2 as _ <-.
  apply when_throw_Ok in H3 as [_ ->].
  apply execute_transfer_Ok in H4 as (uf & ut & ? & ? & ? & ? & ? & ? & -> & ? & ?).
  exists uf, ut. simpl in *. repeat split; done.
Qed.

Lemma executeTransfer_Throw from t amt d s e s' :
  TransactionModel.executeTransfer from t amt d s = (Throw e, s') -> same_tables s s'.
Proof. apply transaction_Throw. Qed.

(** What the checks of [transferMoney] established when they let a
    transfer through. *)
Lemma transferMoney_checks_Ok c d s t amt s' :
  BankService.transferMoney_checks c d s = (Ok (t, amt), s') ->
  s' = s
  /\ BankService.td_to_customer_id d = Some t
  /\ BankService.parseFloat (BankService.td_amount d) = Some amt
  /\ (scale amt <= 2)%nat
  /\ le0 amt = false
  /\ gtb_int amt 10000 = false
  /\ c <> t
  /\ exists uf, BankUser s !! c = Some uf /\ is_Some (BankUser s !! t)
       /\ money_ltb (balance uf) amt = false.
Proof.
  unfold BankService.transferMoney_checks.
  destruct (BankService.td_to_customer_id d) as [t'|]; [|done].
  intros H.
  apply bind_Ok in H as (? & ? & [_ ->]%when_throw_Ok & H).
  apply bind_Ok in H as (? & ? & [_ ->]%when_throw_Ok & H).
  destruct (BankService.parseFloat _) as [amt'|] eqn:Hp; [|done].
  apply bind_Ok in H as (? & ? & [Hpos ->]%when_throw_Ok & H).
  apply bind_Ok in H as (? & ? & [Hmax ->]%when_throw_Ok & H).
  apply bind_Ok in H as (? & ? & [Hdec ->]%when_throw_Ok & H).
  apply bind_Ok in H as (? & ? & [Hself ->]%when_throw_Ok & H).
  apply bind_Ok in H as (sender & ? & [= <- <-] & H).
  apply bind_Ok in H as (? & ? & [Hs ->]%when_throw_Ok & H).
  apply bind_Ok in H as (recipient & ? & [= <- <-] & H).
  apply bind_Ok in H as (? & ? & [Hr ->]%when_throw_Ok & H).
  apply bind_Ok in H as (bal & ? & Hb & H).
  apply bind_Ok in H as (? & ? & [Hlt ->]%when_throw_Ok & H).
  injection H as <- <- <-.
  unfold BankUserModel.getBalance in Hb.
  destruct (BankUser s !! c) as [uf|] eqn:Hc; [|done].
  injection Hb as <- <-.
  apply bool_decide_eq_false in Hdec, Hself, Hr.
  assert (scale amt' <= 2)%nat as Hscale.
  { unfold BankService.parseFloat, BankService.decimalPlaces in *.
    destruct (BankService.td_amount d) as [|n|n]; simplify_eq.
    - lia.
    - pose proof (normalize_scale n). lia. }
  repeat split; try done.
  exists uf. repeat split; try done.
  destruct (BankUser s !! t') eqn:Ht; [eauto | done].
Qed.






(** ** Steps that go through *)

Lemma bind_run {A B} (m : M A) (k : A -> M B) s a s1 :
  m s = (Ok a, s1) -> bind m k s = k a s1.
Proof. unfold bind. by intros ->. Qed.

Lemma bind_fail {A B} (m : M A) (k : A -> M B) s e s1 :
  m s = (Throw e, s1) -> bind m k s = (Throw e, s1).
Proof. unfold bind. by intros ->. Qed.

Ltac run_refl := erewrite bind_run; [| reflexivity].
Ltac run_with H := erewrite bind_run; [| exact H].

Lemma update_balance_run f id s u :
  BankUser s !! id = Some u ->
  0 <= f (balance u) < MAX_MONEY ->
  Schema.update_balance f id s
  = (Ok tt, set_BankUser (insert id (mk_user (name u) (email u) (f (balance u))))
              (Schema.lock_row id s)).
Proof.
  intros Hu [Hlo Hhi]. unfold Schema.update_balance. rewrite Hu.
  unfold overflows. rewrite (proj2 (Z.leb_gt _ _)) by lia.
  by rewrite (proj2 (Z.ltb_ge _ _)) by lia.
Qed.

Lemma insert_transaction_run from to amt ty st d s :
  0 < to_money amt < MAX_MONEY ->
  is_Some (BankUser s !! from) ->
  (forall t, to = Some t -> is_Some (BankUser s !! t)) ->
  exists s', Schema.insert_transaction from to amt ty st d s = (Ok (transaction_id_seq s), s').
Proof.
  intros [Hlo Hhi] Hf Ht. unfold Schema.insert_transaction.
  unfold overflows. rewrite (proj2 (Z.leb_gt _ _)) by lia.
  rewrite (proj2 (Z.leb_gt _ _)) by lia.
  rewrite bool_decide_eq_true_2 by done. simpl.
  destruct to as [t|]; [rewrite bool_decide_eq_true_2 by eauto|]; simpl; eauto.
Qed.

(** The conditions under which a transfer between two accounts is
    completed. *)
Lemma execute_transfer_run from t amt d s uf ut :
  from <> t ->
  BankUser s !! from = Some uf ->
  BankUser s !! t = Some ut ->
  money_ltb (balance uf) amt = false ->
  sub_money (balance uf) amt < MAX_MONEY ->
  0 <= add_money (balance ut) amt < MAX_MONEY ->
  0 < to_money amt < MAX_MONEY ->
  exists s', Schema.execute_transfer from (Some t) amt d s = (Ok (transaction_id_seq s), s').
Proof.
  intros Hne Hf Ht Hlt Hsub Hadd Hamt.
  pose proof (sub_money_nonneg _ _ Hlt) as Hsub0.
  unfold Schema.execute_transfer.
  run_refl. run_refl.
  set (s1 := Schema.lock_row t (Schema.lock_row from s)).
  assert (BankUser s1 = BankUser s) as HB1 by (unfold s1; by rewrite !lock_row_BankUser).
  assert (Schema.validate_transfer from (Some t) amt s1 = (Ok true, s1)) as Hv.
  { apply validate_transfer_true. rewrite HB1. split; [eauto|].
    intros ? [= <-]. split; [eauto | congruence]. }
  run_with Hv. run_refl.
  erewrite bind_run; [|apply (update_balance_run _ from s1 uf); rewrite ?HB1; done].
  set (s2 := set_BankUser _ _).
  assert (BankUser s2 !! t = Some ut) as Ht2.
  { unfold s2. simpl. rewrite lock_row_BankUser, HB1. by rewrite lookup_insert_ne. }
  erewrite bind_run; [|by apply (update_balance_run _ t s2 ut)].
  set (s3 := set_BankUser _ _).
  assert (is_Some (BankUser s3 !! from) /\ is_Some (BankUser s3 !! t)) as [Hf3 Ht3].
  { unfold s3, s2. simpl. rewrite !lock_row_BankUser. simpl. rewrite !lock_row_BankUser, HB1.
    split.
    - rewrite lookup_insert_ne, lookup_insert_eq by done. eauto.
    - rewrite lookup_insert_eq. eauto. }
  destruct (insert_transaction_run from (Some t) amt transfer completed d s3)
    as [s4 H4]; [done | done | by intros ? [= <-] |].
  run_with H4.
  assert (transaction_id_seq s3 = transaction_id_seq s) as ->.
  { unfold s3, s2, s1. simpl. rewrite !lock_row_seq. simpl. by rewrite !lock_row_seq. }
  unfold ret. eauto.
Qed.

Lemma find_app_last {A} (p : A -> bool) (l : list A) (x : A) :
  p x = true -> is_Some (List.find p (l ++ [x])).
Proof.
  intros Hx. induction l as [|y l IH]; simpl.
  - rewrite Hx. eauto.
  - destruct (p y); eauto.
Qed.

Lemma executeTransfer_run from t amt d s uf ut :
  from <> t ->
  BankUser s !! from = Some uf ->
  BankUser s !! t = Some ut ->
  money_ltb (balance uf) amt = false ->
  sub_money (balance uf) amt < MAX_MONEY ->
  0 <= add_money (balance ut) amt < MAX_MONEY ->
  0 < to_money amt < MAX_MONEY ->
  exists r s', TransactionModel.executeTransfer from t amt d s = (Ok (Some r), s').
Proof.
  intros Hne Hf Ht Hlt Hsub Hadd Hamt.
  unfold TransactionModel.executeTransfer, Database.transaction,
    TransactionModel.executeTransfer_callback.
  set (s0 := set_row_locks [] s).
  assert (Schema.validate_transfer from (Some t) amt s0 = (Ok true, s0)) as Hv.
  { apply validate_transfer_true. split; [eauto|].
    intros ? [= <-]. split; [eauto | congruence]. }
  run_with Hv. run_refl.
  destruct (execute_transfer_run from t amt (Some d) s0 uf ut) as [s1 H1]; try done.
  run_with H1.
  apply execute_transfer_Ok in H1 as (_ & _ & _ & _ & _ & _ & _ & HT & _).
  unfold TransactionModel.details_query at 1.
  destruct (find_app_last (fun r => transaction_id r =? transaction_id_seq s0)
              (Transactions s0) (mk_transaction (transaction_id_seq s0) from (Some t)
                 (to_money amt) transfer (clock s0) completed (Some d))) as [r Hr].
  { simpl. apply Z.eqb_refl. }
  rewrite <- HT in Hr.
  erewrite bind_run; [|reflexivity]. rewrite Hr. simpl. eauto.
Qed.

Lemma transferMoney_checks_run c d s t amt uf :
  BankService.td_to_customer_id d = Some t ->
  0 < t ->
  BankService.falsy_amount (BankService.td_amount d) = false ->
  BankService.parseFloat (BankService.td_amount d) = Some amt ->
  le0 amt = false ->
  gtb_int amt 10000 = false ->
  (BankService.decimalPlaces (BankService.td_amount d) <= 2)%nat ->
  c <> t ->
  BankUser s !! c = Some uf ->
  is_Some (BankUser s !! t) ->
  money_ltb (balance uf) amt = false ->
  BankService.transferMoney_checks c d s = (Ok (t, amt), s).
Proof.
  intros Ht Hpos Hfalsy Hp Hle Hmax Hdec Hne Hc [ut Hut] Hlt.
  unfold BankService.transferMoney_checks. rewrite Ht, Hp, Hfalsy, Hle, Hmax.
  unfold BankService.falsy_id. rewrite (proj2 (Z.eqb_neq t 0)) by lia.
  rewrite (proj2 (Z.ltb_ge t 0)) by lia.
  rewrite (bool_decide_eq_false_2 (2 < _)%nat) by lia.
  rewrite (bool_decide_eq_false_2 (c = t)) by done.
  unfold bind, when_, ret, BankUserModel.findById, BankUserModel.getBalance. simpl.
  repeat (progress (rewrite ?Hc, ?Hut, ?Hlt; simpl)). done.
Qed.

(** C3.  With 5000 in account A and 3000 in account B (in minor units,
    500000 and 300000), A and B being two different accounts and the id of
    B a customer id (positive), the call of [transferMoney] by A with
    recipient B, amount 500 and description x succeeds, leaves 4500 in A
    and 3500 in B, and adds exactly one row to the ledger: a completed
    transfer of 500 from A to B. *)
Theorem transfer_scenario (s : State) (A B : Z) (uA uB : BankUserRow) :
  A <> B -> 0 < B ->
  BankUser s !! A = Some uA -> balance uA = 500000 ->
  BankUser s !! B = Some uB -> balance uB = 300000 ->
  exists r s' e,
    BankService.transferMoney A
      (BankService.mk_transfer_data (Some B) (BankService.Num (of_int 500)) (Some "x")) s
    = (Ok r, s')
    /\ balance_of s' A = Some 450000
    /\ balance_of s' B = Some 350000
    /\ Transactions s' = (Transactions s ++ [e])%list
    /\ transaction_type_of e = transfer
    /\ amount e = 50000
    /\ from_customer_id e = A
    /\ to_customer_id e = Some B
    /\ status e = completed.
Proof.
  intros Hne HB HA HbA HuB HbB.
  set (d := BankService.mk_transfer_data _ _ _).
  set (amt := of_int 500).
  assert (money_ltb (balance uA) amt = false) as Hlt by (by rewrite HbA).
  assert (BankService.transferMoney_checks A d s = (Ok (B, amt), s)) as Hchecks.
  { apply (transferMoney_checks_run A d s B amt uA); try done. simpl. lia. }
  assert (sub_money 500000 amt = 450000) as Hsub by reflexivity.
  assert (add_money 300000 amt = 350000) as Hadd by reflexivity.
  assert (to_money amt = 50000) as Hamt by reflexivity.
  assert (MAX_MONEY = 1000000000000000) as Hmax by reflexivity.
  destruct (executeTransfer_run A B amt "x" s uA uB) as (r & s' & Hx);
    rewrite ?HbA, ?HbB, ?Hsub, ?Hadd, ?Hamt, ?Hmax; try done.
  unfold BankService.transferMoney. run_with Hchecks. simpl fst. simpl snd.
  unfold BankService.transferMoney_execute. simpl BankService.or_default.
  run_with Hx.
  apply executeTransfer_Ok in Hx as (uf & ut & _ & Hf & Ht & _ & HBU & HT & _).
  rewrite HA in Hf. rewrite HuB in Ht. simplify_eq.
  assert (BankUser s' !! A = Some (mk_user (name uf) (email uf) 450000)) as HA'.
  { rewrite HBU, lookup_insert_ne, lookup_insert_eq by done. by rewrite HbA, Hsub. }
  assert (BankUser s' !! B = Some (mk_user (name ut) (email ut) 350000)) as HB'.
  { rewrite HBU, lookup_insert_eq. by rewrite HbB, Hadd. }
  unfold BankUserModel.getBalance at 1.
  erewrite bind_run; [|by rewrite HA'].
  simpl. eexists _, s', _. split; [done|].
  unfold balance_of. rewrite HA', HB', HT, Hamt. done.
Qed.

(** ** Withdrawals *)








(** ** The order of the amount checks of a transfer *)




(** ** The rows the three operations write *)

Lemma deposit_money_Ok id amt d s tid s' :
  Schema.deposit_money id amt d s = (Ok tid, s') ->
  exists u,
    BankUser s !! id = Some u
    /\ BankUser s' = <[id := mk_user (name u) (email u) (add_money (balance u) amt)]> (BankUser s)
    /\ Transactions s' =
       (Transactions s
          ++ [mk_transaction tid id None (to_money amt) deposit (clock s) completed d])%list
    /\ tid = transaction_id_seq s.
Proof.
  unfold Schema.deposit_money. intros H.
  apply bind_Ok in H as (? & ? & [_ ->]%when_throw_Ok & H).
  apply bind_Ok in H as (found & ? & [= <- <-] & H).
  apply bind_Ok in H as (? & ? & [Hfound ->]%when_throw_Ok & H).
  apply bind_Ok in H as (? & s1 & H1 & H).
  apply bind_Ok in H as (tid' & s2 & H2 & H).
  injection H as <- <-.
  apply negb_false_iff, bool_decide_eq_true in Hfound. destruct Hfound as [u Hu].
  apply update_balance_Ok in H1 as (HT1 & HS1 & HC1 & HB1 & _). rewrite Hu in HB1.
  apply insert_transaction_Ok in H2 as (-> & HB2 & HT2 & _).
  exists u. repeat split; congruence.
Qed.

Lemma withdraw_money_Ok id amt d s tid s' :
  Schema.withdraw_money id amt d s = (Ok tid, s') ->
  exists u,
    BankUser s !! id = Some u
    /\ money_ltb (balance u) amt = false
    /\ BankUser s' = <[id := mk_user (name u) (email u) (sub_money (balance u) amt)]> (BankUser s)
    /\ Transactions s' =
       (Transactions s
          ++ [mk_transaction tid id None (to_money amt) withdrawal (clock s) completed d])%list
    /\ tid = transaction_id_seq s.
Proof.
  unfold Schema.withdraw_money. intros H.
  apply bind_Ok in H as (? & ? & [_ ->]%when_throw_Ok & H).
  apply bind_Ok in H as (cur & ? & [= <- <-] & H).
  destruct (BankUser s !! id) as [u|] eqn:Hu; [|done]. simpl in H.
  apply bind_Ok in H as (? & ? & [Hlt ->]%when_throw_Ok & H).
  apply bind_Ok in H as (? & s1 & H1 & H).
  apply bind_Ok in H as (tid' & s2 & H2 & H).
  injection H as <- <-.
  apply update_balance_Ok in H1 as (HT1 & HS1 & HC1 & HB1 & _). rewrite Hu in HB1.
  apply insert_transaction_Ok in H2 as (-> & HB2 & HT2 & _).
  exists u. repeat split; congruence.
Qed.

Lemma executeDeposit_Ok id amt d s r s' :
  TransactionModel.executeDeposit id amt d s = (Ok r, s') ->
  exists u,
    BankUser s !! id = Some u
    /\ BankUser s' = <[id := mk_user (name u) (email u) (add_money (balance u) amt)]> (BankUser s)
    /\ Transactions s' =
       (Transactions s
          ++ [mk_transaction (transaction_id_seq s) id None (to_money amt) deposit (clock s)
                completed (Some d)])%list.
Proof.
  unfold TransactionModel.executeDeposit. intros H.
  apply transaction_Ok in H as (s1 & H & ->).
  apply bind_Ok in H as (tid & s2 & H2 & H).
  apply bind_Ok in H as (? & s3 & [= _ <-] & H).
  injection H as _ <-.
  apply deposit_money_Ok in H2 as (u & ? & ? & ? & ->).
  exists u. simpl in *. done.
Qed.

Lemma executeWithdrawal_Ok id amt d s r s' :
  TransactionModel.executeWithdrawal id amt d s = (Ok r, s') ->
  exists u,
    BankUser s !! id = Some u
    /\ money_ltb (balance u) amt = false
    /\ BankUser s' = <[id := mk_user (name u) (email u) (sub_money (balance u) amt)]> (BankUser s)
    /\ Transactions s' =
       (Transactions s
          ++ [mk_transaction (transaction_id_seq s) id None (to_money amt) withdrawal (clock s)
                completed (Some d)])%list.
Proof.
  unfold TransactionModel.executeWithdrawal. intros H.
  apply transaction_Ok in H as (s1 & H & ->).
  apply bind_Ok in H as (tid & s2 & H2 & H).
  apply bind_Ok in H as (? & s3 & [= _ <-] & H).
  injection H as _ <-.
  apply withdraw_money_Ok in H2 as (u & ? & ? & ? & ? & ->).
  exists u. simpl in *. done.
Qed.

Lemma getBalance_model_Ok id s b s' : BankUserModel.getBalance id s = (Ok b, s') -> s' = s.
Proof.
  unfold BankUserModel.getBalance. destruct (BankUser s !! id); [|done]. by intros [= _ <-].
Qed.

Lemma receipt_of_Ok t b s r s' : BankService.receipt_of t b s = (Ok r, s') -> s' = s.
Proof. unfold BankService.receipt_of. destruct t; [|done]. by intros [= _ <-]. Qed.

(** A successful call of the service committed exactly one call of the
    model. *)
Lemma depositMoney_Ok c d s r s' :
  BankService.depositMoney c d s = (Ok r, s') ->
  exists amt descr r0, TransactionModel.executeDeposit c amt descr s = (Ok r0, s').
Proof.
  unfold BankService.depositMoney. intros H.
  apply bind_Ok in H as (? & ? & [_ ->]%when_throw_Ok & H).
  destruct (BankService.parseFloat _) as [amt|]; [|done].
  apply bind_Ok in H as (? & ? & [_ ->]%when_throw_Ok & H).
  apply bind_Ok in H as (? & ? & [_ ->]%when_throw_Ok & H).
  apply bind_Ok in H as (? & ? & [= _ <-] & H).
  apply bind_Ok in H as (? & ? & [_ ->]%when_throw_Ok & H).
  apply bind_Ok in H as (r0 & s1 & H1 & H).
  apply bind_Ok in H as (? & ? & ->%getBalance_model_Ok & H).
  apply receipt_of_Ok in H as ->. eauto.
Qed.

Lemma withdrawMoney_Ok c d s r s' :
  BankService.withdrawMoney c d s = (Ok r, s') ->
  exists amt descr r0, TransactionModel.executeWithdrawal c amt descr s = (Ok r0, s').
Proof.
  unfold BankService.withdrawMoney. intros H.
  apply bind_Ok in H as (? & ? & [_ ->]%when_throw_Ok & H).
  destruct (BankService.parseFloat _) as [amt|]; [|done].
  apply bind_Ok in H as (? & ? & [_ ->]%when_throw_Ok & H).
  apply bind_Ok in H as (? & ? & [_ ->]%when_throw_Ok & H).
  apply bind_Ok in H as (? & ? & [= _ <-] & H).
  apply bind_Ok in H as (? & ? & [_ ->]%when_throw_Ok & H).
  apply bind_Ok in H as (? & ? & ->%getBalance_model_Ok & H).
  apply bind_Ok in H as (? & ? & [_ ->]%when_throw_Ok & H).
  apply bind_Ok in H as (r0 & s1 & H1 & H).
  apply bind_Ok in H as (? & ? & ->%getBalance_model_Ok & H).
  apply receipt_of_Ok in H as ->. eauto.
Qed.

Lemma transferMoney_Ok c d s r s' :
  BankService.transferMoney c d s = (Ok r, s') ->
  exists t amt descr r0,
    BankService.td_to_customer_id d = Some t
    /\ TransactionModel.executeTransfer c t amt descr s = (Ok r0, s').
Proof.
  unfold BankService.transferMoney. intros H.
  apply bind_Ok in H as ([t amt] & s1 & H1 & H).
  apply transferMoney_checks_Ok in H1 as (-> & Ht & _).
  unfold BankService.transferMoney_execute in H. simpl in H.
  apply bind_Ok in H as (r0 & s2 & H2 & H).
  apply bind_Ok in H as (? & ? & ->%getBalance_model_Ok & H).
  apply receipt_of_Ok in H as ->. eauto 10.
Qed.

(** C6, as the code has it.  The row a successful deposit writes has the
    depositing account as [from_customer_id] and no [to_customer_id]; the
    row of a withdrawal has the withdrawing account as [from_customer_id]
    and no [to_customer_id]; the row of a transfer has the sender as
    [from_customer_id] and the recipient as [to_customer_id].  Each
    successful call appends exactly that one row. *)
Theorem ledger_entry_parties (s s' : State) (c : Z) (r : BankService.receipt) :
  (forall d, BankService.depositMoney c d s = (Ok r, s') ->
     exists e, Transactions s' = (Transactions s ++ [e])%list
       /\ transaction_type_of e = deposit
       /\ from_customer_id e = c /\ to_customer_id e = None)
  /\ (forall d, BankService.withdrawMoney c d s = (Ok r, s') ->
        exists e, Transactions s' = (Transactions s ++ [e])%list
          /\ transaction_type_of e = withdrawal
          /\ from_customer_id e = c /\ to_customer_id e = None)
  /\ (forall d, BankService.transferMoney c d s = (Ok r, s') ->
        exists e t, Transactions s' = (Transactions s ++ [e])%list
          /\ transaction_type_of e = transfer
          /\ from_customer_id e = c /\ to_customer_id e = Some t
          /\ BankService.td_to_customer_id d = Some t).
Proof.
  repeat split.
  - intros d H. apply depositMoney_Ok in H as (amt & descr & r0 & H).
    apply executeDeposit_Ok in H as (u & _ & _ & ->). eauto.
  - intros d H. apply withdrawMoney_Ok in H as (amt & descr & r0 & H).
    apply executeWithdrawal_Ok in H as (u & _ & _ & _ & ->). eauto.
  - intros d H. apply transferMoney_Ok in H as (t & amt & descr & r0 & Ht & H).
    apply executeTransfer_Ok in H as (uf & ut & _ & _ & _ & _ & _ & -> & _).
    eauto 10.
Qed.

(** The claim as the specification words it fails on a deposit: the row
    names the depositing account as [from_customer_id], and its
    [to_customer_id] is null. *)
Lemma deposit_entry_counterexample :
  let s := mk_state (<[1 := mk_user "A" "a@kodbank.test" 10000]> ∅) [] 1 [] 0 in
  let d := BankService.mk_amount_data (BankService.Num (of_int 50)) None in
  exists r s' e,
    BankService.depositMoney 1 d s = (Ok r, s')
    /\ Transactions s' = [e]
    /\ transaction_type_of e = deposit
    /\ from_customer_id e = 1
    /\ to_customer_id e = None
    /\ to_customer_id e <> Some 1.
Proof.
  simpl. eexists _, _, _. split; [vm_compute; reflexivity|].
  simpl. repeat split; done.
Qed.

(** ** The re-check inside the atomic unit *)

Lemma validate_transfer_false from to amt s :
  Schema.validate_transfer from to amt s <> (Ok true, s) ->
  Schema.validate_transfer from to amt s = (Ok false, s).
Proof.
  destruct (validate_transfer_run from to amt s) as [[|] Hb]; [done | by rewrite Hb].
Qed.

Lemma validate_transfer_insufficient from to amt s uf :
  BankUser s !! from = Some uf ->
  money_ltb (balance uf) amt = true ->
  Schema.validate_transfer from to amt s = (Ok false, s).
Proof.
  intros Hf Hlt. apply validate_transfer_false.
  intros [(uf' & Hf' & Hlt') _]%validate_transfer_true. congruence.
Qed.

(** C7, as the code has it.  When the sender's balance no longer covers
    the amount at the time the atomic unit runs, the transfer fails with
    the generic error "Invalid transfer" (error code INVALID_TRANSFER),
    and no table changes; the pre-check of [transferMoney] fails on the
    same condition with "Insufficient balance" (INSUFFICIENT_BALANCE).
    The stored procedure [execute_transfer], run on its own, raises
    "Invalid transfer" as well. *)
Theorem recheck_fails_with_invalid_transfer (s : State) (c t : Z) (amt : numeric)
    (descr : option string) (uf : BankUserRow) :
  BankUser s !! c = Some uf ->
  money_ltb (balance uf) amt = true ->
  BankService.transferMoney_execute c t amt descr s
  = (Throw (Error "Invalid transfer"), set_row_locks [] s)
  /\ Schema.execute_transfer c (Some t) amt descr s
     = (Throw (raise_exception "Invalid transfer"),
        Schema.lock_row t (Schema.lock_row c s))
  /\ kind_of (Error "Invalid transfer") = InvalidTransfer
  /\ ErrorHandler.errorCode (ErrorHandler.errorHandler (Error "Invalid transfer"))
     = "INVALID_TRANSFER"
  /\ (forall d a,
        BankService.td_to_customer_id d = Some t -> 0 < t -> c <> t ->
        is_Some (BankUser s !! t) ->
        BankService.falsy_amount (BankService.td_amount d) = false ->
        BankService.parseFloat (BankService.td_amount d) = Some a ->
        le0 a = false -> gtb_int a 10000 = false ->
        (BankService.decimalPlaces (BankService.td_amount d) <= 2)%nat ->
        money_ltb (balance uf) a = true ->
        BankService.transferMoney c d s = (Throw (Error "Insufficient balance"), s))
  /\ kind_of (Error "Insufficient balance") = InsufficientFunds
  /\ ErrorHandler.errorCode (ErrorHandler.errorHandler (Error "Insufficient balance"))
     = "INSUFFICIENT_BALANCE".
Proof.
  intros Hc Hlt. repeat split.
  - unfold BankService.transferMoney_execute, TransactionModel.executeTransfer.
    erewrite bind_fail; [done|].
    unfold Database.transaction, TransactionModel.executeTransfer_callback.
    erewrite bind_run;
      [|by apply (validate_transfer_insufficient c (Some t) amt (set_row_locks [] s) uf)].
    done.
  - unfold Schema.execute_transfer. run_refl. run_refl.
    erewrite bind_run;
      [|apply (validate_transfer_insufficient c (Some t) amt _ uf);
        [by rewrite !lock_row_BankUser | done]].
    done.
  - intros d a Ht Hpos Hne [ut Hut] Hfalsy Hp Hle Hmax Hdec Hlta.
    unfold BankService.transferMoney. erewrite bind_fail; [done|].
    unfold BankService.transferMoney_checks. rewrite Ht, Hp, Hfalsy, Hle, Hmax.
    unfold BankService.falsy_id. rewrite (proj2 (Z.eqb_neq t 0)) by lia.
    rewrite (proj2 (Z.ltb_ge t 0)) by lia.
    rewrite (bool_decide_eq_false_2 (2 < _)%nat) by lia.
    rewrite (bool_decide_eq_false_2 (c = t)) by done.
    unfold bind, when_, ret, BankUserModel.findById, BankUserModel.getBalance. simpl.
    repeat (progress (rewrite ?Hc, ?Hut, ?Hlta; simpl)). done.
Qed.

(** The claim as the specification words it fails: the sender passes the
    pre-check with 1000, withdraws 800 before the transfer executes, and
    the transfer of 500 then fails as "Invalid transfer", which is not the
    kind of the pre-check failure. *)
Lemma recheck_kind_counterexample :
  let s := mk_state (<[1 := mk_user "A" "a@kodbank.test" 100000]>
                       (<[2 := mk_user "B" "b@kodbank.test" 300000]> ∅)) [] 1 [] 0 in
  let d := BankService.mk_transfer_data (Some 2) (BankService.Num (of_int 500)) None in
  let w := BankService.mk_amount_data (BankService.Num (of_int 800)) None in
  BankService.transferMoney_checks 1 d s = (Ok (2, of_int 500), s)
  /\ exists r s' e s'',
       BankService.withdrawMoney 1 w s = (Ok r, s')
       /\ balance_of s' 1 = Some 20000
       /\ BankService.transferMoney_execute 1 2 (of_int 500) None s' = (Throw e, s'')
       /\ same_tables s' s''
       /\ kind_of e <> InsufficientFunds
       /\ ErrorHandler.errorCode (ErrorHandler.errorHandler e) <> "INSUFFICIENT_BALANCE".
Proof.
  simpl. split; [vm_compute; reflexivity|].
  eexists _, _, _, _. split; [vm_compute; reflexivity|].
  split; [vm_compute; reflexivity|].
  split; [vm_compute; reflexivity|].
  split; [by vm_compute|].
  split; vm_compute; congruence.
Qed.

Lemma recheck_fails_with_invalid_transfer_witness :
  let s := mk_state (<[1 := mk_user "A" "a@kodbank.test" 20000]>
                       (<[2 := mk_user "B" "b@kodbank.test" 300000]> ∅)) [] 2 [] 0 in
  BankService.transferMoney_execute 1 2 (of_int 500) None s
  = (Throw (Error "Invalid transfer"), set_row_locks [] s).
Proof.
  intros s.
  refine (proj1 (recheck_fails_with_invalid_transfer s 1 2 (of_int 500) None
                   (mk_user "A" "a@kodbank.test" 20000) _ _)).
  - reflexivity.
  - reflexivity.
Defined.

(** ** The order of the row locks *)

Lemma lock_row_locks id s u :
  BankUser s !! id = Some u ->
  row_locks (Schema.lock_row id s)
  = if bool_decide (id ∈ row_locks s) then row_locks s else (row_locks s ++ [id])%list.
Proof. intros Hu. unfold Schema.lock_row. rewrite Hu. by case_bool_decide. Qed.

Lemma lock_row_held id s : id ∈ row_locks s -> Schema.lock_row id s = s.
Proof.
  intros H. unfold Schema.lock_row. destruct (BankUser s !! id); [|done].
  by rewrite bool_decide_eq_true_2.
Qed.

Lemma update_balance_locks f id s : id ∈ row_locks s ->
  row_locks (snd (Schema.update_balance f id s)) = row_locks s.
Proof.
  intros H. unfold Schema.update_balance.
  destruct (BankUser s !! id); [|done]. rewrite (lock_row_held _ _ H).
  by repeat case_match.
Qed.

Lemma insert_transaction_locks from to amt ty st d s :
  row_locks (snd (Schema.insert_transaction from to amt ty st d s)) = row_locks s.
Proof. unfold Schema.insert_transaction. by repeat case_match. Qed.

Lemma update_balance_keeps_locks f id (l : list Z) :
  id ∈ l -> preserves (fun s => row_locks s = l) (Schema.update_balance f id).
Proof. intros Hid s Hs. rewrite update_balance_locks; [done | by rewrite Hs]. Qed.

Lemma insert_transaction_keeps_locks from to amt ty st d (l : list Z) :
  preserves (fun s => row_locks s = l) (Schema.insert_transaction from to amt ty st d).
Proof. intros s Hs. by rewrite insert_transaction_locks. Qed.

(** C8, as the code has it.  For a transfer between two different
    existing accounts, [execute_transfer] takes the row lock of the sender
    first and the row lock of the recipient second, whatever their ids,
    and takes no other lock; the order is ascending exactly when the
    sender has the lower id. *)
Theorem transfer_locks_in_call_order (s : State) (from t : Z) (amt : numeric)
    (d : option string) :
  from <> t ->
  is_Some (BankUser s !! from) ->
  is_Some (BankUser s !! t) ->
  row_locks s = [] ->
  let locks := row_locks (snd (Schema.execute_transfer from (Some t) amt d s)) in
  locks = [from; t]
  /\ ((exists a b, locks = [a; b] /\ a < b) <-> from < t).
Proof.
  intros Hne [uf Hf] [ut Ht] Hlocks. simpl.
  assert (row_locks (snd (Schema.execute_transfer from (Some t) amt d s)) = [from; t]) as H.
  { unfold Schema.execute_transfer. run_refl. run_refl.
    set (s1 := Schema.lock_row t (Schema.lock_row from s)).
    assert (row_locks s1 = [from; t]) as H1.
    { unfold s1. rewrite (lock_row_locks t _ ut) by (by rewrite lock_row_BankUser).
      rewrite (lock_row_locks from _ uf) by done. rewrite Hlocks.
      rewrite (bool_decide_eq_false_2 (from ∈ [])) by apply not_elem_of_nil.
      rewrite bool_decide_eq_false_2 by (intros ?%list_elem_of_singleton; congruence).
      done. }
    revert H1. generalize s1. clear s1.
    change (preserves (fun s => row_locks s = [from; t])
              (let* valid := Schema.validate_transfer from (Some t) amt in
               when_ (negb valid) (throw (raise_exception "Invalid transfer"));;
               Schema.update_balance (fun b => sub_money b amt) from;;
               Schema.update_balance (fun b => add_money b amt) t;;
               let* transaction_id_val :=
                 Schema.insert_transaction from (Some t) amt transfer completed d in
               ret transaction_id_val)).
    repeat first
      [ solve [auto with preserves]
      | apply update_balance_keeps_locks;
        solve [apply list_elem_of_here | apply list_elem_of_further, list_elem_of_here]
      | apply insert_transaction_keeps_locks
      | preserves_step ]. }
  rewrite H. split; [done|]. split.
  - intros (a & b & [= <- <-] & Hab). done.
  - intros Hlt. eauto.
Qed.

(** The claim as the specification words it fails when the sender has the
    higher id: a transfer from account 2 to account 1 locks row 2 before
    row 1. *)
Lemma lock_order_counterexample :
  let s := mk_state (<[1 := mk_user "A" "a@kodbank.test" 500000]>
                       (<[2 := mk_user "B" "b@kodbank.test" 300000]> ∅)) [] 1 [] 0 in
  exists tid s',
    Schema.execute_transfer 2 (Some 1) (of_int 10) None s = (Ok tid, s')
    /\ row_locks s' = [2; 1].
Proof. simpl. eexists _, _. split; [vm_compute; reflexivity | reflexivity]. Qed.

Lemma transfer_locks_in_call_order_witness :
  let s := mk_state (<[1 := mk_user "A" "a@kodbank.test" 500000]>
                       (<[2 := mk_user "B" "b@kodbank.test" 300000]> ∅)) [] 1 [] 0 in
  row_locks (snd (Schema.execute_transfer 2 (Some 1) (of_int 10) None s)) = [2; 1].
Proof.
  intros s.
  refine (proj1 (transfer_locks_in_call_order s 2 1 (of_int 10) None _ _ _ _)).
  - lia.
  - by eexists.
  - by eexists.
  - reflexivity.
Defined.

(** ** Reads *)

Lemma getBalance_state c s : snd (BankService.getBalance c s) = s.
Proof.
  unfold BankService.getBalance, bind, when_, throw, ret, BankUserModel.findById,
    BankUserModel.getBalance.
  repeat (case_match; simplify_eq/=); done.
Qed.

Lemma getTransactionHistory_state c o s : snd (BankService.getTransactionHistory c o s) = s.
Proof.
  unfold BankService.getTransactionHistory, BankService.parse_filter, bind, when_, throw,
    ret, TransactionModel.getUserTransactions, TransactionModel.getUserTransactionCount.
  repeat (case_match; simplify_eq/=); done.
Qed.

(** The clock does not enter the history. *)
Lemma getTransactionHistory_clock c o t s :
  fst (BankService.getTransactionHistory c o (set_clock t s))
  = fst (BankService.getTransactionHistory c o s).
Proof.
  unfold BankService.getTransactionHistory, BankService.parse_filter, bind, when_, throw,
    ret, TransactionModel.getUserTransactions, TransactionModel.getUserTransactionCount.
  repeat (case_match; simplify_eq/=); done.
Qed.

(** C9, as the code has it.  [getBalance] and [getTransactionHistory]
    leave the state as it is.  A second [getBalance] with nothing in
    between returns the identical result when the clock has not moved;
    when only time has passed it fails with the same error, or returns the
    same customer id, name and balance, and its [last_updated] is the
    time of the second call.  A second [getTransactionHistory] with the
    same arguments returns the identical result, whatever time has
    passed. *)
Theorem reads_are_repeatable (s : State) (c t : Z) (o : BankService.history_options) :
  let first := BankService.getBalance c s in
  let second := BankService.getBalance c (set_clock t (snd first)) in
  snd first = s
  /\ fst (BankService.getBalance c (snd first)) = fst first
  /\ match fst first, fst second with
     | Ok a, Ok b =>
         BankService.bd_customer_id a = BankService.bd_customer_id b
         /\ BankService.bd_name a = BankService.bd_name b
         /\ BankService.bd_balance a = BankService.bd_balance b
         /\ BankService.last_updated a = clock s
         /\ BankService.last_updated b = t
     | Throw e1, Throw e2 => e1 = e2
     | _, _ => False
     end
  /\ snd (BankService.getTransactionHistory c o s) = s
  /\ fst (BankService.getTransactionHistory c o
            (set_clock t (snd (BankService.getTransactionHistory c o s))))
     = fst (BankService.getTransactionHistory c o s).
Proof.
  simpl. rewrite getBalance_state, getTransactionHistory_state.
  split; [done|]. split; [done|].
  split; [|split; [done | apply getTransactionHistory_clock]].
  unfold BankService.getBalance, bind, when_, throw, ret, BankUserModel.findById,
    BankUserModel.getBalance. simpl.
  destruct (BankService.falsy_id c); simpl; [done|].
  destruct (BankUser s !! c) as [u|] eqn:Hu; simpl; [|done].
  rewrite Hu. simpl. done.
Qed.

(** The claim as the specification words it fails on [getBalance]: the
    reply carries the time of the call, so two calls a second apart differ
    although nothing was written in between. *)
Lemma getBalance_counterexample :
  let s := mk_state (<[1 := mk_user "A" "a@kodbank.test" 500000]> ∅) [] 1 [] 1000 in
  let first := BankService.getBalance 1 s in
  let second := BankService.getBalance 1 (set_clock 1001 (snd first)) in
  same_tables s (snd first)
  /\ fst first <> fst second.
Proof. simpl. split; [by vm_compute|]. vm_compute. congruence. Qed.

(** ** Who may read a transaction *)

Lemma findById_find tid s :
  TransactionModel.findById tid s
  = (Ok (TransactionModel.join s
           <$> List.find (fun r => transaction_id r =? tid) (Transactions s)), s).
Proof. done. Qed.

(** C10.  For a transaction that exists and a caller who is a customer
    (ids are positive), [getTransactionDetails] returns the details of the
    transaction exactly when the caller is its [from_customer_id] or its
    [to_customer_id]; for any other caller it throws the access-denied
    error.  The state is unchanged either way. *)
Theorem transaction_details_access (s : State) (customerId transactionId : Z)
    (e : TransactionRow) :
  0 < customerId ->
  0 < transactionId ->
  List.find (fun r => transaction_id r =? transactionId) (Transactions s) = Some e ->
  let party := from_customer_id e = customerId \/ to_customer_id e = Some customerId in
  (BankService.getTransactionDetails customerId transactionId s
   = (Ok (TransactionModel.join s e), s) <-> party)
  /\ (~ party ->
      BankService.getTransactionDetails customerId transactionId s
      = (Throw (Error "Access denied: Transaction does not belong to this user"), s)
      /\ kind_of (Error "Access denied: Transaction does not belong to this user")
         = AccessDenied
      /\ ErrorHandler.errorCode
           (ErrorHandler.errorHandler
              (Error "Access denied: Transaction does not belong to this user"))
         = "ACCESS_DENIED").
Proof.
  intros Hc Ht He. simpl.
  unfold BankService.getTransactionDetails, BankService.falsy_id.
  rewrite (proj2 (Z.eqb_neq customerId 0)), (proj2 (Z.eqb_neq transactionId 0)) by lia.
  simpl. run_refl. erewrite bind_run; [|apply findById_find]. rewrite He. simpl.
  destruct (decide (from_customer_id e = customerId)) as [Hf|Hf].
  { rewrite (bool_decide_eq_false_2 (from_customer_id e ≠ customerId)) by tauto.
    simpl. split; [split; [tauto | done] | tauto]. }
  rewrite (bool_decide_eq_true_2 (from_customer_id e ≠ customerId)) by done.
  destruct (decide (to_customer_id e = Some customerId)) as [Hto|Hto].
  { rewrite (bool_decide_eq_false_2 (to_customer_id e ≠ Some customerId)) by tauto.
    simpl. split; [split; [tauto | done] | tauto]. }
  rewrite (bool_decide_eq_true_2 (to_customer_id e ≠ Some customerId)) by done.
  simpl. split; [split; [done | tauto] | done].
Qed.

Lemma transaction_details_access_witness :
  let e := mk_transaction 7 1 (Some 2) 50000 transfer 10 completed (Some "x") in
  let s := mk_state (<[1 := mk_user "A" "a@kodbank.test" 500000]>
                       (<[2 := mk_user "B" "b@kodbank.test" 300000]>
                          (<[3 := mk_user "C" "c@kodbank.test" 0]> ∅))) [e] 8 [] 20 in
  BankService.getTransactionDetails 2 7 s = (Ok (TransactionModel.join s e), s)
  /\ BankService.getTransactionDetails 3 7 s
     = (Throw (Error "Access denied: Transaction does not belong to this user"), s).
Proof.
  intros e s. split.
  - refine (proj2 (proj1 (transaction_details_access s 2 7 e _ _ _)) _).
    + lia.
    + lia.
    + reflexivity.
    + right. reflexivity.
  - refine (proj1 (proj2 (transaction_details_access s 3 7 e _ _ _) _)).
    + lia.
    + lia.
    + reflexivity.
    + simpl. intros [H|H]; discriminate H.
Defined.

(** ** The theorems at work on sample states *)

Lemma balance_never_negative_witness :
  let s := mk_state (<[1 := mk_user "A" "a@kodbank.test" 100000]>
                       (<[2 := mk_user "B" "b@kodbank.test" 300000]> ∅)) [] 1 [] 0 in
  let ops :=
    [Withdraw 1 (BankService.mk_amount_data (BankService.Num (of_int 800)) None);
     Transfer 1 (BankService.mk_transfer_data (Some 2) (BankService.Num (of_int 500)) None);
     Deposit 2 (BankService.mk_amount_data (BankService.Str (mk_numeric 1050 2)) None)] in
  Forall (non_negative 1) (states ops s).
Proof.
  intros s ops. apply balance_never_negative.
  unfold non_negative. replace (balance_of s 1) with (Some 100000) by reflexivity. lia.
Defined.


Lemma transfer_scenario_witness :
  let s := mk_state (<[1 := mk_user "A" "a@kodbank.test" 500000]>
                       (<[2 := mk_user "B" "b@kodbank.test" 300000]> ∅)) [] 1 [] 0 in
  exists r s' e,
    BankService.transferMoney 1
      (BankService.mk_transfer_data (Some 2) (BankService.Num (of_int 500)) (Some "x")) s
    = (Ok r, s')
    /\ balance_of s' 1 = Some 450000
    /\ balance_of s' 2 = Some 350000
    /\ Transactions s' = (Transactions s ++ [e])%list
    /\ transaction_type_of e = transfer
    /\ amount e = 50000
    /\ from_customer_id e = 1
    /\ to_customer_id e = Some 2
    /\ status e = completed.
Proof.
  intros s.
  apply (transfer_scenario s 1 2 (mk_user "A" "a@kodbank.test" 500000)
           (mk_user "B" "b@kodbank.test" 300000)).
  - lia.
  - lia.
  - reflexivity.
  - reflexivity.
  - reflexivity.
  - reflexivity.
Defined.

Lemma ledger_entry_parties_witness :
  let s := mk_state (<[1 := mk_user "A" "a@kodbank.test" 10000]> ∅) [] 1 [] 0 in
  let d := BankService.mk_amount_data (BankService.Num (of_int 50)) None in
  exists e,
    Transactions (snd (BankService.depositMoney 1 d s)) = (Transactions s ++ [e])%list
    /\ transaction_type_of e = deposit
    /\ from_customer_id e = 1
    /\ to_customer_id e = None.
Proof.
  intros s d.
  refine (proj1 (ledger_entry_parties s (snd (BankService.depositMoney 1 d s)) 1 _) d _).
  vm_compute. reflexivity.
Defined.

(** * Further properties of the ledger code *)

(** ** The ledger only grows *)

Lemma ids_between_weaken n n' l m : n <= n' -> ids_between n' l m -> ids_between n l m.
Proof. destruct l; simpl; [lia|]. intros ? [? ?]. split; [lia | done]. Qed.

Lemma ids_between_le n l m : ids_between n l m -> n <= m.
Proof.
  revert n. induction l as [|e l IH]; intros n; simpl; [done|].
  intros [Hn H]. apply IH in H. lia.
Qed.

Lemma ids_between_app n l1 k l2 m :
  ids_between n l1 k -> ids_between k l2 m -> ids_between n (l1 ++ l2) m.
Proof.
  revert n. induction l1 as [|e l1 IH]; intros n; simpl.
  - apply ids_between_weaken.
  - intros [Hn H1] H2. split; [done | by apply IH].
Qed.

Lemma ids_between_bounds n l m :
  ids_between n l m ->
  Forall (fun e => n <= transaction_id e < m) l /\ NoDup (transaction_id <$> l).
Proof.
  revert n. induction l as [|e l IH]; intros n; simpl.
  - intros _. split; constructor.
  - intros [Hn H]. pose proof (ids_between_le _ _ _ H) as Hm.
    destruct (IH _ H) as [Hall Hnd]. split.
    + constructor; [lia|]. eapply Forall_impl; [exact Hall|]. simpl. intros; lia.
    + constructor; [|done]. intros (x & Hx & Hin)%list_elem_of_fmap.
      rewrite Forall_forall in Hall. apply Hall in Hin. lia.
Qed.

Lemma ledger_grows_same s s' :
  Transactions s' = Transactions s ->
  transaction_id_seq s <= transaction_id_seq s' ->
  ledger_grows s s'.
Proof.
  intros HT Hseq. exists []. rewrite app_nil_r. repeat split; [done | constructor | done].
Qed.

#[local] Instance ledger_grows_preorder : PreOrder ledger_grows.
Proof.
  split.
  - intros s. apply ledger_grows_same; [done | lia].
  - intros s1 s2 s3 (l1 & HT1 & Hl1 & Hid1) (l2 & HT2 & Hl2 & Hid2).
    exists (l1 ++ l2)%list. rewrite HT2, HT1, app_assoc. split; [done|].
    split; [by apply Forall_app | by eapply ids_between_app].
Qed.

Section steps.

Context (R : State -> State -> Prop) `{!PreOrder R}.

Lemma steps_ret {A} (a : A) : steps R (ret a).
Proof. intros s. simpl. reflexivity. Qed.

Lemma steps_throw {A} (e : error) : steps R (@throw A e).
Proof. intros s. simpl. reflexivity. Qed.

Lemma steps_read_only {A} (m : M A) : (forall s, snd (m s) = s) -> steps R m.
Proof. intros H s. rewrite H. reflexivity. Qed.

Lemma steps_bind {A B} (m : M A) (k : A -> M B) :
  steps R m -> (forall a, steps R (k a)) -> steps R (bind m k).
Proof.
  intros Hm Hk s. unfold bind. specialize (Hm s).
  destruct (m s) as [[a|e] s1]; simpl in *; [|done].
  etransitivity; [exact Hm | apply Hk].
Qed.

Lemma steps_when b (m : M unit) : steps R m -> steps R (when_ b m).
Proof. intros Hm. destruct b; simpl; [done | apply steps_ret]. Qed.

End steps.

Create HintDb steps.

Ltac steps_step :=
  first
    [ apply steps_bind; [apply _ | | intros ?]
    | apply steps_when; [apply _ |]
    | apply steps_ret; apply _
    | apply steps_throw; apply _ ].

Ltac steps_auto :=
  repeat first [ solve [auto with steps typeclass_instances] | steps_step | case_match ].

Lemma validate_transfer_grows from to amt :
  steps ledger_grows (Schema.validate_transfer from to amt).
Proof. apply steps_read_only; [apply _|]. intros s. apply validate_transfer_state. Qed.

Lemma user_exists_grows id : steps ledger_grows (Schema.user_exists id).
Proof. by apply steps_read_only; [apply _|]. Qed.

Lemma select_balance_grows id : steps ledger_grows (Schema.select_balance id).
Proof. by apply steps_read_only; [apply _|]. Qed.

Lemma details_query_grows id : steps ledger_grows (TransactionModel.details_query id).
Proof. by apply steps_read_only; [apply _|]. Qed.

Lemma findById_grows id : steps ledger_grows (BankUserModel.findById id).
Proof. by apply steps_read_only; [apply _|]. Qed.

Lemma getBalance_model_grows id : steps ledger_grows (BankUserModel.getBalance id).
Proof. apply steps_read_only; [apply _|]. intros s. apply getBalance_model_state. Qed.

Lemma receipt_of_grows t b : steps ledger_grows (BankService.receipt_of t b).
Proof. apply steps_read_only; [apply _|]. intros s. apply receipt_of_state. Qed.

Lemma transferMoney_checks_grows c d : steps ledger_grows (BankService.transferMoney_checks c d).
Proof. apply steps_read_only; [apply _|]. intros s. apply transferMoney_checks_state. Qed.

Lemma select_for_update_grows id : steps ledger_grows (Schema.select_balance_for_update id).
Proof.
  intros s. simpl. apply ledger_grows_same;
    [apply lock_row_Transactions | rewrite lock_row_seq; lia].
Qed.

Lemma update_balance_grows f id : steps ledger_grows (Schema.update_balance f id).
Proof.
  intros s. unfold Schema.update_balance.
  destruct (BankUser s !! id); [|reflexivity].
  repeat case_match; simpl;
    (apply ledger_grows_same; simpl; rewrite ?lock_row_Transactions, ?lock_row_seq;
     [done | lia]).
Qed.

(** The INSERT appends one row that passed [chk_amount_positive], or fails
    and only uses up a value of the sequence. *)
Lemma insert_transaction_grows from to amt ty d :
  steps ledger_grows (Schema.insert_transaction from to amt ty completed d).
Proof.
  intros s. unfold Schema.insert_transaction.
  destruct (overflows _); simpl; [apply ledger_grows_same; simpl; [done | lia]|].
  destruct (_ <=? 0) eqn:Hpos; simpl; [apply ledger_grows_same; simpl; [done | lia]|].
  destruct (negb _); simpl; [apply ledger_grows_same; simpl; [done | lia]|].
  destruct (match to with Some _ => _ | None => _ end); simpl;
    [apply ledger_grows_same; simpl; [done | lia]|].
  apply Z.leb_gt in Hpos. eexists (cons _ nil). simpl. split; [reflexivity|].
  split; [|simpl; lia]. constructor; [by simpl | constructor].
Qed.

#[local] Hint Resolve validate_transfer_grows user_exists_grows select_balance_grows
  details_query_grows findById_grows getBalance_model_grows receipt_of_grows
  transferMoney_checks_grows select_for_update_grows update_balance_grows
  insert_transaction_grows : steps.

Lemma execute_transfer_grows from to amt d :
  steps ledger_grows (Schema.execute_transfer from to amt d).
Proof. unfold Schema.execute_transfer. steps_auto. Qed.

Lemma deposit_money_grows id amt d : steps ledger_grows (Schema.deposit_money id amt d).
Proof. unfold Schema.deposit_money. steps_auto. Qed.

Lemma withdraw_money_grows id amt d : steps ledger_grows (Schema.withdraw_money id amt d).
Proof. unfold Schema.withdraw_money. steps_auto. Qed.

(** COMMIT keeps the rows the callback wrote; ROLLBACK drops them and
    keeps the position of the sequence. *)
Lemma transaction_grows {A} (callback : M A) :
  steps ledger_grows callback -> steps ledger_grows (Database.transaction callback).
Proof.
  intros Hc s. unfold Database.transaction.
  specialize (Hc (set_row_locks [] s)).
  destruct (callback _) as [[r|e] s1]; simpl in *.
  - exact Hc.
  - destruct Hc as (l & _ & _ & Hids). apply ids_between_le in Hids.
    by apply ledger_grows_same.
Qed.

#[local] Hint Resolve execute_transfer_grows deposit_money_grows withdraw_money_grows
  : steps.

Lemma executeTransfer_grows from to amt d :
  steps ledger_grows (TransactionModel.executeTransfer from to amt d).
Proof.
  apply transaction_grows. unfold TransactionModel.executeTransfer_callback. steps_auto.
Qed.

Lemma executeDeposit_grows id amt d :
  steps ledger_grows (TransactionModel.executeDeposit id amt d).
Proof. apply transaction_grows. steps_auto. Qed.

Lemma executeWithdrawal_grows id amt d :
  steps ledger_grows (TransactionModel.executeWithdrawal id amt d).
Proof. apply transaction_grows. steps_auto. Qed.

#[local] Hint Resolve executeTransfer_grows executeDeposit_grows executeWithdrawal_grows
  : steps.

Lemma run_op_grows o s : ledger_grows s (run_op o s).
Proof.
  destruct o; simpl.
  - revert s. change (steps ledger_grows (BankService.transferMoney customerId data)).
    unfold BankService.transferMoney, BankService.transferMoney_execute. steps_auto.
  - revert s. change (steps ledger_grows (BankService.depositMoney customerId data)).
    unfold BankService.depositMoney. steps_auto.
  - revert s. change (steps ledger_grows (BankService.withdrawMoney customerId data)).
    unfold BankService.withdrawMoney. steps_auto.
  - by apply ledger_grows_same.
Qed.

Lemma run_grows (ops : list operation) (s : State) : ledger_grows s (run ops s).
Proof.
  unfold run. revert s. induction ops as [|o ops IH]; intros s; simpl.
  - reflexivity.
  - etransitivity; [apply run_op_grows | apply IH].
Qed.

(** X1.  Over any sequence of transfers, deposits and withdrawals the
    ledger is append-only: the rows that were there stay as they were, in
    place, and every row added is a completed row of positive amount whose
    id is at least the value the sequence had at the start and below the
    value it has at the end. *)
Theorem ledger_append_only (ops : list operation) (s : State) :
  exists l,
    Transactions (run ops s) = (Transactions s ++ l)%list
    /\ Forall (fun e =>
                 0 < amount e /\ status e = completed
                 /\ transaction_id_seq s <= transaction_id e
                    < transaction_id_seq (run ops s)) l.
Proof.
  destruct (run_grows ops s) as (l & HT & Hl & Hids).
  exists l. split; [done|].
  apply ids_between_bounds in Hids as [Hb _].
  rewrite Forall_forall in *. intros e He. specialize (Hl e He). specialize (Hb e He).
  simpl in *. tauto.
Qed.

(** X2.  If no two rows share an id and every id is below the next value
    of the sequence, the same holds after any sequence of operations: an
    id is never handed out twice, also not after a failed insert. *)
Theorem ids_stay_fresh (ops : list operation) (s : State) :
  ids_fresh s -> ids_fresh (run ops s).
Proof.
  intros [Hlt Hnd]. destruct (run_grows ops s) as (l & HT & _ & Hids).
  pose proof (ids_between_le _ _ _ Hids) as Hseq.
  destruct (ids_between_bounds _ _ _ Hids) as [Hl Hndl].
  unfold ids_fresh. rewrite HT. split.
  - apply Forall_app. split.
    + eapply Forall_impl; [exact Hlt|]. simpl. intros; lia.
    + eapply Forall_impl; [exact Hl|]. simpl. intros; lia.
  - rewrite fmap_app. apply NoDup_app. split; [done|]. split; [|done].
    intros x (e1 & -> & H1)%list_elem_of_fmap (e2 & Heq & H2)%list_elem_of_fmap.
    rewrite Forall_forall in Hlt, Hl. apply Hlt in H1. apply Hl in H2. lia.
Qed.

Lemma ids_stay_fresh_witness :
  let s := mk_state (<[1 := mk_user "A" "a@kodbank.test" 100000]>
                       (<[2 := mk_user "B" "b@kodbank.test" 300000]> ∅))
             [mk_transaction 1 1 None 100000 deposit 5 completed None] 2 [] 10 in
  let ops :=
    [Transfer 1 (BankService.mk_transfer_data (Some 2) (BankService.Num (of_int 500)) None);
     Withdraw 2 (BankService.mk_amount_data (BankService.Num (of_int 20)) None)] in
  ids_fresh (run ops s).
Proof.
  intros s ops. apply ids_stay_fresh. split.
  - constructor; [simpl; lia | constructor].
  - simpl. constructor; [apply not_elem_of_nil | constructor].
Defined.

Lemma filter_none {A} (p : A -> bool) (l : list A) :
  (forall x, In x l -> p x = false) -> List.filter p l = [].
Proof.
  induction l as [|x l IH]; simpl; [done|]. intros H.
  rewrite (H x) by auto. apply IH. auto.
Qed.

(** X3.  [getFailedTransactions] finds nothing in a ledger written by the
    three operations: when no row is failed at the start, then after any
    sequence of transfers, deposits and withdrawals the query returns the
    empty list, whatever the limit. *)
Theorem no_failed_transactions (ops : list operation) (s : State) (limit : Z) :
  Forall (fun e => status e <> failed) (Transactions s) ->
  TransactionModel.getFailedTransactions limit (run ops s) = (Ok [], run ops s).
Proof.
  intros Hs. destruct (run_grows ops s) as (l & HT & Hl & _).
  unfold TransactionModel.getFailedTransactions. rewrite HT.
  assert (List.filter (fun t => bool_decide (status t = failed)) (Transactions s ++ l)
          = []) as ->; [|simpl; by rewrite take_nil].
  apply filter_none.
  intros e Hin. apply bool_decide_eq_false.
  apply in_app_or in Hin as [Hin|Hin].
  - rewrite Forall_forall in Hs. apply Hs. by apply list_elem_of_In.
  - rewrite Forall_forall in Hl. apply list_elem_of_In, Hl in Hin as [_ ->]. done.
Qed.

Lemma no_failed_transactions_witness :
  let s := mk_state (<[1 := mk_user "A" "a@kodbank.test" 100000]> ∅)
             [mk_transaction 1 1 None 100000 deposit 5 pending None] 2 [] 10 in
  let ops :=
    [Withdraw 1 (BankService.mk_amount_data (BankService.Num (of_int 20)) None)] in
  TransactionModel.getFailedTransactions 50 (run ops s) = (Ok [], run ops s).
Proof.
  intros s ops. apply no_failed_transactions.
  constructor; [simpl; discriminate | constructor].
Defined.

(** ** What a call that succeeded did, in full *)

Lemma getBalance_model_Ok_inv id s b s' :
  BankUserModel.getBalance id s = (Ok b, s') -> s' = s /\ balance_of s id = Some b.
Proof.
  unfold BankUserModel.getBalance, balance_of.
  destruct (BankUser s !! id); [|done]. by intros [= <- <-].
Qed.

Lemma receipt_of_Ok_inv t b s r s' :
  BankService.receipt_of t b s = (Ok r, s') ->
  s' = s
  /\ exists dtl,
       t = Some dtl
       /\ r = BankService.mk_receipt
                (transaction_id (TransactionModel.entry dtl))
                (from_customer_id (TransactionModel.entry dtl))
                (to_customer_id (TransactionModel.entry dtl))
                (amount (TransactionModel.entry dtl)) b
                (transaction_date (TransactionModel.entry dtl))
                (description (TransactionModel.entry dtl)).
Proof.
  unfold BankService.receipt_of. destruct t as [dtl|]; [|done].
  intros [= <- <-]. eauto.
Qed.

Lemma transferMoney_Ok_full c d s r s' :
  BankService.transferMoney c d s = (Ok r, s') ->
  exists t amt r0 nb,
    BankService.transferMoney_checks c d s = (Ok (t, amt), s)
    /\ TransactionModel.executeTransfer c t amt
         (BankService.or_default (BankService.td_description d) "Money transfer") s
       = (Ok r0, s')
    /\ balance_of s' c = Some nb
    /\ BankService.receipt_of r0 nb s' = (Ok r, s').
Proof.
  unfold BankService.transferMoney. intros H.
  apply bind_Ok in H as ([t amt] & s1 & H1 & H).
  pose proof (transferMoney_checks_state c d s) as Hs. rewrite H1 in Hs. simpl in Hs. subst s1.
  unfold BankService.transferMoney_execute in H. simpl in H.
  apply bind_Ok in H as (r0 & s2 & H2 & H).
  apply bind_Ok in H as (nb & s3 & [-> Hnb]%getBalance_model_Ok_inv & H).
  pose proof (receipt_of_Ok _ _ _ _ _ H) as ->. eauto 10.
Qed.

Lemma depositMoney_Ok_full c d s r s' :
  BankService.depositMoney c d s = (Ok r, s') ->
  exists amt r0 nb,
    BankService.parseFloat (BankService.ad_amount d) = Some amt
    /\ le0 amt = false
    /\ gtb_int amt 50000 = false
    /\ TransactionModel.executeDeposit c amt
         (BankService.or_default (BankService.ad_description d) "Deposit") s
       = (Ok r0, s')
    /\ balance_of s' c = Some nb
    /\ BankService.receipt_of r0 nb s' = (Ok r, s').
Proof.
  unfold BankService.depositMoney. intros H.
  apply bind_Ok in H as (? & ? & [_ ->]%when_throw_Ok & H).
  destruct (BankService.parseFloat _) as [amt|]; [|done].
  apply bind_Ok in H as (? & ? & [Hpos ->]%when_throw_Ok & H).
  apply bind_Ok in H as (? & ? & [Hmax ->]%when_throw_Ok & H).
  apply bind_Ok in H as (? & ? & [= _ <-] & H).
  apply bind_Ok in H as (? & ? & [_ ->]%when_throw_Ok & H).
  apply bind_Ok in H as (r0 & s1 & H1 & H).
  apply bind_Ok in H as (nb & ? & [-> Hnb]%getBalance_model_Ok_inv & H).
  pose proof (receipt_of_Ok _ _ _ _ _ H) as ->. eauto 10.
Qed.

Lemma withdrawMoney_Ok_full c d s r s' :
  BankService.withdrawMoney c d s = (Ok r, s') ->
  exists amt r0 nb,
    BankService.parseFloat (BankService.ad_amount d) = Some amt
    /\ le0 amt = false
    /\ gtb_int amt 25000 = false
    /\ TransactionModel.executeWithdrawal c amt
         (BankService.or_default (BankService.ad_description d) "Withdrawal") s
       = (Ok r0, s')
    /\ balance_of s' c = Some nb
    /\ BankService.receipt_of r0 nb s' = (Ok r, s').
Proof.
  unfold BankService.withdrawMoney. intros H.
  apply bind_Ok in H as (? & ? & [_ ->]%when_throw_Ok & H).
  destruct (BankService.parseFloat _) as [amt|]; [|done].
  apply bind_Ok in H as (? & ? & [Hpos ->]%when_throw_Ok & H).
  apply bind_Ok in H as (? & ? & [Hmax ->]%when_throw_Ok & H).
  apply bind_Ok in H as (? & ? & [= _ <-] & H).
  apply bind_Ok in H as (? & ? & [_ ->]%when_throw_Ok & H).
  apply bind_Ok in H as (? & ? & ->%getBalance_model_Ok & H).
  apply bind_Ok in H as (? & ? & [_ ->]%when_throw_Ok & H).
  apply bind_Ok in H as (r0 & s1 & H1 & H).
  apply bind_Ok in H as (nb & ? & [-> Hnb]%getBalance_model_Ok_inv & H).
  pose proof (receipt_of_Ok _ _ _ _ _ H) as ->. eauto 10.
Qed.

(** The details a committed unit returns are those of the first row that
    carries the id the INSERT returned. *)
Lemma executeTransfer_details from t amt d s r s' :
  TransactionModel.executeTransfer from t amt d s = (Ok r, s') ->
  r = TransactionModel.join s'
        <$> List.find (fun e => transaction_id e =? transaction_id_seq s) (Transactions s').
Proof.
  unfold TransactionModel.executeTransfer. intros H.
  apply transaction_Ok in H as (s1 & H & ->).
  unfold TransactionModel.executeTransfer_callback in H.
  apply bind_Ok in H as (valid & s2 & H2 & H).
  apply bind_Ok in H as (? & s3 & H3 & H).
  apply bind_Ok in H as (tid & s4 & H4 & H).
  apply bind_Ok in H as (? & s5 & H5 & H).
  injection H as <- <-. injection H5 as <- <-.
  destruct (validate_transfer_run from (Some t) amt (set_row_locks [] s)) as [b Hb].
  rewrite Hb in H2. injection H2 as _ <-.
  apply when_throw_Ok in H3 as [_ ->].
  apply execute_transfer_Ok in H4 as (_ & _ & _ & _ & _ & _ & _ & _ & -> & _).
  done.
Qed.

Lemma executeDeposit_details id amt d s r s' :
  TransactionModel.executeDeposit id amt d s = (Ok r, s') ->
  r = TransactionModel.join s'
        <$> List.find (fun e => transaction_id e =? transaction_id_seq s) (Transactions s').
Proof.
  unfold TransactionModel.executeDeposit. intros H.
  apply transaction_Ok in H as (s1 & H & ->).
  apply bind_Ok in H as (tid & s2 & H2 & H).
  apply bind_Ok in H as (? & s3 & H3 & H).
  injection H as <- <-. injection H3 as <- <-.
  apply deposit_money_Ok in H2 as (_ & _ & _ & _ & ->). done.
Qed.

Lemma executeWithdrawal_details id amt d s r s' :
  TransactionModel.executeWithdrawal id amt d s = (Ok r, s') ->
  r = TransactionModel.join s'
        <$> List.find (fun e => transaction_id e =? transaction_id_seq s) (Transactions s').
Proof.
  unfold TransactionModel.executeWithdrawal. intros H.
  apply transaction_Ok in H as (s1 & H & ->).
  apply bind_Ok in H as (tid & s2 & H2 & H).
  apply bind_Ok in H as (? & s3 & H3 & H).
  injection H as <- <-. injection H3 as <- <-.
  apply withdraw_money_Ok in H2 as (_ & _ & _ & _ & _ & ->). done.
Qed.

Lemma find_app_fresh (l : list TransactionRow) (x : TransactionRow) (n : Z) :
  Forall (fun e => transaction_id e < n) l ->
  transaction_id x = n ->
  List.find (fun e => transaction_id e =? n) (l ++ [x]) = Some x.
Proof.
  intros Hl Hx. induction Hl as [|y l Hy Hl IH]; simpl.
  - by rewrite (proj2 (Z.eqb_eq _ _) Hx).
  - by rewrite (proj2 (Z.eqb_neq _ _)) by lia.
Qed.

(** ** A refused call changes nothing *)

(** After a unit that committed, the two steps that build the reply
    cannot fail. *)
Lemma reply_cannot_fail c (x : option TransactionModel.details) s1 e s' :
  is_Some (balance_of s1 c) -> is_Some x ->
  (let* newBalance := BankUserModel.getBalance c in
   BankService.receipt_of x newBalance) s1 <> (Throw e, s').
Proof.
  intros [b Hb] [dtl ->]. unfold bind, BankUserModel.getBalance.
  unfold balance_of in Hb. destruct (BankUser s1 !! c); [done | done].
Qed.

Lemma transferMoney_Throw c d s e s' :
  BankService.transferMoney c d s = (Throw e, s') -> same_tables s s'.
Proof.
  intros H. unfold BankService.transferMoney in H.
  destruct (BankService.transferMoney_checks c d s) as [[[t amt]|e0] s1] eqn:Hc.
  - pose proof (transferMoney_checks_state c d s) as Hs. rewrite Hc in Hs. simpl in Hs.
    subst s1. erewrite bind_run in H by exact Hc.
    unfold BankService.transferMoney_execute in H. simpl in H.
    destruct (TransactionModel.executeTransfer c t amt
                (BankService.or_default (BankService.td_description d) "Money transfer") s)
      as [[r0|e0] s1] eqn:Hx.
    + exfalso. erewrite bind_run in H by exact Hx.
      pose proof (executeTransfer_details _ _ _ _ _ _ _ Hx) as Hr0.
      apply executeTransfer_Ok in Hx as (uf & ut & Hne & _ & _ & _ & HB & HT & _).
      eapply (reply_cannot_fail c r0 s1); [| |exact H].
      * unfold balance_of. rewrite HB, lookup_insert_ne, lookup_insert_eq by done. eauto.
      * rewrite Hr0, HT. apply fmap_is_Some, find_app_last. simpl. apply Z.eqb_refl.
    + erewrite bind_fail in H by exact Hx. injection H as _ <-.
      by apply executeTransfer_Throw in Hx.
  - erewrite bind_fail in H by exact Hc.
    pose proof (transferMoney_checks_state c d s) as Hs. rewrite Hc in Hs. simpl in Hs.
    injection H as _ <-. by subst.
Qed.

Lemma depositMoney_Throw c d s e s' :
  BankService.depositMoney c d s = (Throw e, s') -> same_tables s s'.
Proof.
  intros H. unfold BankService.depositMoney in H.
  unfold bind at 1 in H. destruct (BankService.falsy_amount _); simpl in H;
    [by injection H as _ <-|].
  destruct (BankService.parseFloat _) as [amt|]; [|by injection H as _ <-].
  unfold bind at 1 in H. destruct (le0 amt); simpl in H; [by injection H as _ <-|].
  unfold bind at 1 in H. destruct (gtb_int amt 50000); simpl in H;
    [by injection H as _ <-|].
  unfold bind at 1 in H. simpl in H.
  unfold bind at 1 in H. destruct (bool_decide _); simpl in H; [by injection H as _ <-|].
  destruct (TransactionModel.executeDeposit c amt
              (BankService.or_default (BankService.ad_description d) "Deposit") s)
    as [[r0|e0] s1] eqn:Hx.
  - exfalso. erewrite bind_run in H by exact Hx.
    pose proof (executeDeposit_details _ _ _ _ _ _ Hx) as Hr0.
    apply executeDeposit_Ok in Hx as (u & _ & HB & HT).
    eapply (reply_cannot_fail c r0 s1); [| |exact H].
    + unfold balance_of. rewrite HB, lookup_insert_eq. eauto.
    + rewrite Hr0, HT. apply fmap_is_Some, find_app_last. simpl. apply Z.eqb_refl.
  - erewrite bind_fail in H by exact Hx. injection H as _ <-.
    by apply transaction_Throw in Hx.
Qed.

Lemma withdrawMoney_Throw c d s e s' :
  BankService.withdrawMoney c d s = (Throw e, s') -> same_tables s s'.
Proof.
  intros H. unfold BankService.withdrawMoney in H.
  unfold bind at 1 in H. destruct (BankService.falsy_amount _); simpl in H;
    [by injection H as _ <-|].
  destruct (BankService.parseFloat _) as [amt|]; [|by injection H as _ <-].
  unfold bind at 1 in H. destruct (le0 amt); simpl in H; [by injection H as _ <-|].
  unfold bind at 1 in H. destruct (gtb_int amt 25000); simpl in H;
    [by injection H as _ <-|].
  unfold bind at 1 in H. simpl in H.
  unfold bind at 1 in H. destruct (bool_decide _); simpl in H; [by injection H as _ <-|].
  unfold bind at 1 in H.
  pose proof (getBalance_model_state c s) as Hgs.
  destruct (BankUserModel.getBalance c s) as [[b|e0] s0]; simpl in Hgs; subst s0;
    [|by injection H as _ <-].
  unfold bind at 1 in H. destruct (money_ltb b amt); simpl in H; [by injection H as _ <-|].
  destruct (TransactionModel.executeWithdrawal c amt
              (BankService.or_default (BankService.ad_description d) "Withdrawal") s)
    as [[r0|e0] s1] eqn:Hx.
  - exfalso. erewrite bind_run in H by exact Hx.
    pose proof (executeWithdrawal_details _ _ _ _ _ _ Hx) as Hr0.
    apply executeWithdrawal_Ok in Hx as (u & _ & _ & HB & HT).
    eapply (reply_cannot_fail c r0 s1); [| |exact H].
    + unfold balance_of. rewrite HB, lookup_insert_eq. eauto.
    + rewrite Hr0, HT. apply fmap_is_Some, find_app_last. simpl. apply Z.eqb_refl.
  - erewrite bind_fail in H by exact Hx. injection H as _ <-.
    by apply transaction_Throw in Hx.
Qed.

(** X4.  When [transferMoney], [depositMoney] or [withdrawMoney] throws,
    whatever the error and wherever it was raised, every balance and the
    whole ledger are as they were before the call. *)
Theorem refused_call_changes_nothing (s s' : State) (c : Z) (e : error) :
  (forall d, BankService.transferMoney c d s = (Throw e, s') -> same_tables s s')
  /\ (forall d, BankService.depositMoney c d s = (Throw e, s') -> same_tables s s')
  /\ (forall d, BankService.withdrawMoney c d s = (Throw e, s') -> same_tables s s').
Proof.
  split; [|split]; intros d.
  - apply transferMoney_Throw.
  - apply depositMoney_Throw.
  - apply withdrawMoney_Throw.
Qed.

Lemma refused_call_changes_nothing_witness :
  let s := mk_state (<[1 := mk_user "A" "a@kodbank.test" 10000]>
                       (<[2 := mk_user "B" "b@kodbank.test" 300000]> ∅)) [] 1 [] 0 in
  let d := BankService.mk_transfer_data (Some 2) (BankService.Num (of_int 500)) None in
  same_tables s (snd (BankService.transferMoney 1 d s)).
Proof.
  intros s d.
  refine (proj1 (refused_call_changes_nothing s (snd (BankService.transferMoney 1 d s)) 1
                   (Error "Insufficient balance")) d _).
  vm_compute. reflexivity.
Defined.

(** ** The reply of a call that succeeded *)

(** X5.  When every id in the ledger is below the next value of the
    sequence, the reply of a successful transfer, deposit or withdrawal
    describes the row that this call appended: its id is the value the
    sequence had, its date is the time of the call, and id, parties,
    amount and description are those of the row; [new_balance] is the
    balance the caller's account holds after the call. *)
Theorem reply_describes_the_new_row (s s' : State) (c : Z) (r : BankService.receipt)
    (call : M BankService.receipt) :
  Forall (fun e => transaction_id e < transaction_id_seq s) (Transactions s) ->
  (exists d, call = BankService.transferMoney c d)
  \/ (exists d, call = BankService.depositMoney c d)
  \/ (exists d, call = BankService.withdrawMoney c d) ->
  call s = (Ok r, s') ->
  exists e,
    Transactions s' = (Transactions s ++ [e])%list
    /\ transaction_id e = transaction_id_seq s
    /\ transaction_date e = clock s
    /\ BankService.r_transaction_id r = transaction_id e
    /\ BankService.r_from_customer_id r = from_customer_id e
    /\ BankService.r_to_customer_id r = to_customer_id e
    /\ BankService.r_amount r = amount e
    /\ BankService.r_transaction_date r = transaction_date e
    /\ BankService.r_description r = description e
    /\ balance_of s' c = Some (BankService.r_new_balance r).
Proof.
  intros Hfresh Hcall H.
  assert (forall r0 nb e,
            Transactions s' = (Transactions s ++ [e])%list ->
            transaction_id e = transaction_id_seq s ->
            transaction_date e = clock s ->
            r0 = TransactionModel.join s'
                   <$> List.find (fun x => transaction_id x =? transaction_id_seq s)
                         (Transactions s') ->
            balance_of s' c = Some nb ->
            BankService.receipt_of r0 nb s' = (Ok r, s') ->
            exists e,
              Transactions s' = (Transactions s ++ [e])%list
              /\ transaction_id e = transaction_id_seq s
              /\ transaction_date e = clock s
              /\ BankService.r_transaction_id r = transaction_id e
              /\ BankService.r_from_customer_id r = from_customer_id e
              /\ BankService.r_to_customer_id r = to_customer_id e
              /\ BankService.r_amount r = amount e
              /\ BankService.r_transaction_date r = transaction_date e
              /\ BankService.r_description r = description e
              /\ balance_of s' c = Some (BankService.r_new_balance r)) as Hfinish.
  { intros r0 nb e HT Hid Hdate Hr0 Hnb Hrec.
    rewrite HT, (find_app_fresh _ e _ Hfresh Hid) in Hr0. subst r0.
    apply receipt_of_Ok_inv in Hrec as (_ & dtl & [= <-] & ->). simpl.
    exists e. repeat split; done. }
  destruct Hcall as [[d ->]|[[d ->]|[d ->]]].
  - apply transferMoney_Ok_full in H as (t & amt & r0 & nb & _ & Hx & Hnb & Hrec).
    pose proof (executeTransfer_details _ _ _ _ _ _ _ Hx) as Hr0.
    apply executeTransfer_Ok in Hx as (uf & ut & _ & _ & _ & _ & _ & HT & _).
    eapply Hfinish; eauto.
  - apply depositMoney_Ok_full in H as (amt & r0 & nb & _ & _ & _ & Hx & Hnb & Hrec).
    pose proof (executeDeposit_details _ _ _ _ _ _ Hx) as Hr0.
    apply executeDeposit_Ok in Hx as (u & _ & _ & HT).
    eapply Hfinish; eauto.
  - apply withdrawMoney_Ok_full in H as (amt & r0 & nb & _ & _ & _ & Hx & Hnb & Hrec).
    pose proof (executeWithdrawal_details _ _ _ _ _ _ Hx) as Hr0.
    apply executeWithdrawal_Ok in Hx as (u & _ & _ & _ & HT).
    eapply Hfinish; eauto.
Qed.

Lemma reply_describes_the_new_row_witness :
  let s := mk_state (<[1 := mk_user "A" "a@kodbank.test" 10000]> ∅)
             [mk_transaction 1 1 None 10000 deposit 3 completed None] 2 [] 7 in
  let d := BankService.mk_amount_data (BankService.Num (of_int 50)) (Some "pay") in
  exists r s' e,
    BankService.depositMoney 1 d s = (Ok r, s')
    /\ Transactions s' = (Transactions s ++ [e])%list
    /\ BankService.r_transaction_id r = 2
    /\ BankService.r_amount r = amount e
    /\ balance_of s' 1 = Some (BankService.r_new_balance r).
Proof.
  intros s d.
  destruct (BankService.depositMoney 1 d s) as [r0 s0] eqn:H.
  assert (exists r, r0 = Ok r) as [r ->].
  { vm_compute in H. injection H as <- _. eauto. }
  destruct (reply_describes_the_new_row s s0 1 r (BankService.depositMoney 1 d))
    as (e & HT & Hid & _ & Hrid & _ & _ & Hamt & _ & _ & Hb).
  - constructor; [simpl; lia | constructor].
  - right. left. by exists d.
  - exact H.
  - exists r, s0, e. rewrite Hrid, Hid. done.
Defined.

(** ** Deposits and withdrawals of exact amounts *)

Lemma parseFloat_scale a amt :
  BankService.parseFloat a = Some amt ->
  (BankService.decimalPlaces a <= 2)%nat -> (scale amt <= 2)%nat.
Proof.
  destruct a as [|d|d]; simpl; [done| |]; intros [= <-] H.
  - done.
  - pose proof (normalize_scale d). lia.
Qed.

Lemma user_eta (u : BankUserRow) : mk_user (name u) (email u) (balance u) = u.
Proof. by destruct u. Qed.


Lemma depositMoney_effect c d s r s' :
  BankService.depositMoney c d s = (Ok r, s') ->
  exists amt u descr,
    BankService.parseFloat (BankService.ad_amount d) = Some amt
    /\ le0 amt = false
    /\ gtb_int amt 50000 = false
    /\ BankUser s !! c = Some u
    /\ BankUser s'
       = <[c := mk_user (name u) (email u) (add_money (balance u) amt)]> (BankUser s)
    /\ Transactions s' =
       (Transactions s
          ++ [mk_transaction (transaction_id_seq s) c None (to_money amt) deposit
                (clock s) completed descr])%list.
Proof.
  intros H. apply depositMoney_Ok_full in H as (amt & ? & nb & Hp & ? & ? & Hx & _ & _).
  apply executeDeposit_Ok in Hx as (u & Hu & HB & HT). eauto 15.
Qed.

Lemma withdrawMoney_effect c d s r s' :
  BankService.withdrawMoney c d s = (Ok r, s') ->
  exists amt u descr,
    BankService.parseFloat (BankService.ad_amount d) = Some amt
    /\ le0 amt = false
    /\ gtb_int amt 25000 = false
    /\ BankUser s !! c = Some u
    /\ money_ltb (balance u) amt = false
    /\ BankUser s'
       = <[c := mk_user (name u) (email u) (sub_money (balance u) amt)]> (BankUser s)
    /\ Transactions s' =
       (Transactions s
          ++ [mk_transaction (transaction_id_seq s) c None (to_money amt) withdrawal
                (clock s) completed descr])%list.
Proof.
  intros H. apply withdrawMoney_Ok_full in H as (amt & ? & nb & Hp & ? & ? & Hx & _ & _).
  apply executeWithdrawal_Ok in Hx as (u & Hu & ? & HB & HT). eauto 15.
Qed.

(** X6.  For an amount of at most two decimal places, a successful
    deposit raises the balance of the account by exactly the amount of the
    row it appends to the ledger, and a successful withdrawal lowers it by
    exactly that amount, no other account changing; a deposit followed by
    a withdrawal of the same amount from the same account leaves every
    account as it was. *)
Theorem deposit_and_withdrawal_are_exact (s s1 s2 : State) (c : Z)
    (d : BankService.amount_data) (r1 r2 : BankService.receipt) :
  (BankService.decimalPlaces (BankService.ad_amount d) <= 2)%nat ->
  (BankService.depositMoney c d s = (Ok r1, s1) ->
   exists b e,
     balance_of s c = Some b
     /\ Transactions s1 = (Transactions s ++ [e])%list
     /\ balance_of s1 c = Some (b + amount e)
     /\ (forall a, a <> c -> BankUser s1 !! a = BankUser s !! a))
  /\ (BankService.withdrawMoney c d s = (Ok r2, s2) ->
      exists b e,
        balance_of s c = Some b
        /\ Transactions s2 = (Transactions s ++ [e])%list
        /\ balance_of s2 c = Some (b - amount e)
        /\ (forall a, a <> c -> BankUser s2 !! a = BankUser s !! a))
  /\ (BankService.depositMoney c d s = (Ok r1, s1) ->
      BankService.withdrawMoney c d s1 = (Ok r2, s2) ->
      BankUser s2 = BankUser s).
Proof.
  intros Hdec.
  split; [|split].
  - intros H. apply depositMoney_effect in H as (amt & u & ? & Hp & _ & _ & Hu & HB & HT).
    rewrite add_money_exact in HB by (by eapply parseFloat_scale).
    eexists (balance u), _. unfold balance_of. rewrite Hu, HB, lookup_insert_eq.
    split; [done|]. split; [exact HT|]. split; [done|].
    intros a Ha. by rewrite lookup_insert_ne.
  - intros H.
    apply withdrawMoney_effect in H as (amt & u & ? & Hp & _ & _ & Hu & _ & HB & HT).
    rewrite sub_money_exact in HB by (by eapply parseFloat_scale).
    eexists (balance u), _. unfold balance_of. rewrite Hu, HB, lookup_insert_eq.
    split; [done|]. split; [exact HT|]. split; [done|].
    intros a Ha. by rewrite lookup_insert_ne.
  - intros H1 H2.
    apply depositMoney_effect in H1 as (amt & u & ? & Hp & _ & _ & Hu & HB & _).
    apply withdrawMoney_effect in H2 as (amt' & u' & ? & Hp' & _ & _ & Hu' & _ & HB' & _).
    rewrite Hp in Hp'. injection Hp' as <-.
    rewrite HB, lookup_insert_eq in Hu'. injection Hu' as <-.
    rewrite HB', HB. simpl. rewrite insert_insert_eq.
    rewrite add_money_exact, sub_money_exact by (by eapply parseFloat_scale).
    replace (balance u + to_money amt - to_money amt) with (balance u) by lia.
    rewrite user_eta. by apply insert_id.
Qed.

Lemma deposit_and_withdrawal_are_exact_witness :
  let s := mk_state (<[1 := mk_user "A" "a@kodbank.test" 10000]> ∅) [] 1 [] 0 in
  let d := BankService.mk_amount_data (BankService.Str (mk_numeric 2550 2)) None in
  BankUser (snd (BankService.withdrawMoney 1 d (snd (BankService.depositMoney 1 d s))))
  = BankUser s.
Proof.
  intros s d.
  refine (proj2 (proj2 (deposit_and_withdrawal_are_exact s
                          (snd (BankService.depositMoney 1 d s))
                          (snd (BankService.withdrawMoney 1 d
                                  (snd (BankService.depositMoney 1 d s))))
                          1 d _ _ _)) _ _).
  - simpl. lia.
  - vm_compute. reflexivity.
  - vm_compute. reflexivity.
Defined.

(** ** The balance against the ledger *)







(** The bound on the decimal places cannot be dropped.  [withdrawMoney]
    itself does not test them: a withdrawal of 0.005 from a balance of
    1.00 leaves the balance at 1.00, since 0.995 is stored as 1.00, and
    adds a row of 0.01 to the ledger. *)
Example half_a_cent_withdrawal :
  let s := mk_state (<[1 := mk_user "A" "a@kodbank.test" 100]> ∅) [] 1 [] 0 in
  let s' := run [Withdraw 1 (BankService.mk_amount_data (BankService.Str (mk_numeric 5 3))
                               None)] s in
  balance_of s' 1 = Some 100
  /\ ledger_balance 1 s' = -1
  /\ ledger_balance 1 s = 0.
Proof. repeat split; reflexivity. Qed.

(** ** The pages of the history *)

Lemma insert_desc_Permutation t l : TransactionModel.insert_desc t l ≡ₚ t :: l.
Proof.
  induction l as [|u l IH]; simpl; [done|].
  destruct (transaction_date u <=? transaction_date t); [done|].
  rewrite IH. apply Permutation_swap.
Qed.

Lemma order_by_date_desc_Permutation l : TransactionModel.order_by_date_desc l ≡ₚ l.
Proof.
  unfold TransactionModel.order_by_date_desc. induction l as [|t l IH]; simpl; [done|].
  by rewrite insert_desc_Permutation, IH.
Qed.

(** Newest first. *)
Lemma insert_desc_sorted t l :
  StronglySorted (fun x y => transaction_date y <= transaction_date x) l ->
  StronglySorted (fun x y => transaction_date y <= transaction_date x)
    (TransactionModel.insert_desc t l).
Proof.
  induction 1 as [|u l Hl IH Hu]; simpl.
  - repeat constructor.
  - destruct (transaction_date u <=? transaction_date t) eqn:Hc.
    + apply Z.leb_le in Hc. constructor; [by constructor|].
      constructor; [done|]. eapply Forall_impl; [exact Hu|]. simpl. intros; lia.
    + apply Z.leb_gt in Hc. constructor; [done|].
      rewrite insert_desc_Permutation. constructor; [lia | done].
Qed.

Lemma order_by_date_desc_sorted l :
  StronglySorted (fun x y => transaction_date y <= transaction_date x)
    (TransactionModel.order_by_date_desc l).
Proof.
  unfold TransactionModel.order_by_date_desc. induction l as [|t l IH]; simpl.
  - constructor.
  - by apply insert_desc_sorted.
Qed.

Lemma StronglySorted_drop {A} (R : relation A) n l :
  StronglySorted R l -> StronglySorted R (drop n l).
Proof.
  revert l. induction n as [|n IH]; intros l Hl; [done|].
  destruct l as [|x l]; [done|]. simpl. apply IH. by inversion Hl.
Qed.

Lemma StronglySorted_take {A} (R : relation A) n l :
  StronglySorted R l -> StronglySorted R (take n l).
Proof.
  intros Hl. revert n. induction Hl as [|x l Hl IH Hx]; intros [|n]; simpl; try constructor.
  - apply IH.
  - by apply Forall_take.
Qed.

Lemma StronglySorted_lookup {A} (R : relation A) l i j x y :
  StronglySorted R l -> l !! i = Some x -> l !! j = Some y -> (i < j)%nat -> R x y.
Proof.
  intros Hl. revert i j. induction Hl as [|z l Hl IH Hz]; intros i j Hi Hj Hij; [done|].
  destruct j as [|j]; [lia|]. destruct i as [|i]; simpl in *.
  - simplify_eq. rewrite Forall_forall in Hz. apply Hz. by eapply list_elem_of_lookup_2.
  - apply (IH i j); [done..|lia].
Qed.

Lemma parse_filter_Ok {A} (parse : string -> option A) inv x s v s' :
  BankService.parse_filter parse inv x s = (Ok v, s') ->
  s' = s
  /\ v = match x with
         | Some str => if bool_decide (str = "") then None else parse str
         | None => None
         end.
Proof.
  unfold BankService.parse_filter, ret, throw. intros H.
  destruct x as [str|]; [|by simplify_eq].
  destruct (bool_decide (str = "")); [by simplify_eq|].
  destruct (parse str); by simplify_eq.
Qed.

(** The rows of a page. *)
Lemma getTransactionHistory_Ok c o s h s' :
  BankService.getTransactionHistory c o s = (Ok h, s') ->
  exists lim off opts,
    c <> 0
    /\ BankService.ho_limit o = Some lim /\ 1 <= lim <= 100
    /\ BankService.ho_offset o = Some off /\ 0 <= off
    /\ opts
       = TransactionModel.mk_options lim off
           (match BankService.ho_transaction_type o with
            | Some str =>
                if bool_decide (str = "") then None
                else BankService.transaction_type_of_string str
            | None => None
            end)
           (match BankService.ho_status o with
            | Some str =>
                if bool_decide (str = "") then None else BankService.status_of_string str
            | None => None
            end)
           (BankService.ho_start_date o) (BankService.ho_end_date o)
    /\ (forall str, BankService.ho_transaction_type o = Some str -> str <> "" ->
          is_Some (BankService.transaction_type_of_string str))
    /\ (forall str, BankService.ho_status o = Some str -> str <> "" ->
          is_Some (BankService.status_of_string str))
    /\ h = BankService.mk_history
             (TransactionModel.join s <$>
                TransactionModel.limit_offset lim off
                  (TransactionModel.order_by_date_desc
                     (List.filter (TransactionModel.matches c opts) (Transactions s))))
             (BankService.mk_pagination lim off
                (Z.of_nat (length (List.filter (TransactionModel.matches c opts)
                                     (Transactions s))))
                (off + lim
                 <? Z.of_nat (length (List.filter (TransactionModel.matches c opts)
                                        (Transactions s)))))
    /\ s' = s.
Proof.
  unfold BankService.getTransactionHistory. intros H.
  apply bind_Ok in H as (? & s1 & H1 & H). apply when_throw_Ok in H1 as [Hc ->].
  destruct (BankService.ho_limit o) as [lim|]; [|done].
  apply bind_Ok in H as (? & s1 & H1 & H). apply when_throw_Ok in H1 as [Hlim ->].
  destruct (BankService.ho_offset o) as [off|]; [|done].
  apply bind_Ok in H as (? & s1 & H1 & H). apply when_throw_Ok in H1 as [Hoff ->].
  apply bind_Ok in H as (ty & s1 & H1 & H). pose proof H1 as Hty.
  apply parse_filter_Ok in H1 as [-> ->].
  apply bind_Ok in H as (st & s1 & H1 & H). pose proof H1 as Hst.
  apply parse_filter_Ok in H1 as [-> ->].
  unfold bind, TransactionModel.getUserTransactions, TransactionModel.getUserTransactionCount,
    ret in H. simpl in H. injection H as <- <-.
  apply orb_false_iff in Hlim as [Hl1 Hl2].
  apply Z.leb_gt in Hl1. apply Z.ltb_ge in Hl2. apply Z.ltb_ge in Hoff.
  unfold BankService.falsy_id in Hc. apply Z.eqb_neq in Hc.
  eexists lim, off, _. repeat (split; [first [done | lia]|]).
  split; [|split; [|done]].
  - intros str Hx Hne. unfold BankService.parse_filter in Hty.
    rewrite Hx, bool_decide_eq_false_2 in Hty by done.
    destruct (BankService.transaction_type_of_string str); [eauto | done].
  - intros str Hx Hne. unfold BankService.parse_filter in Hst.
    rewrite Hx, bool_decide_eq_false_2 in Hst by done.
    destruct (BankService.status_of_string str); [eauto | done].
Qed.

Lemma filter_In_elem_of {A} (p : A -> bool) l x :
  x ∈ List.filter p l <-> x ∈ l /\ p x = true.
Proof. rewrite !list_elem_of_In. apply List.filter_In. Qed.

(** X8.  A page of [getTransactionHistory] holds at most [limit] rows,
    [limit] being between 1 and 100.  Every row on it is a row of the
    ledger in which the caller is the sender or the recipient and which
    passes each filter that was given: type, status, first and last date.
    The rows come newest first.  [has_more] is set exactly when rows that
    match lie beyond the page. *)
Theorem history_page (s s' : State) (c : Z) (o : BankService.history_options)
    (h : BankService.history) :
  BankService.getTransactionHistory c o s = (Ok h, s') ->
  let rows := TransactionModel.entry <$> BankService.transactions h in
  let page := BankService.pagination_of h in
  BankService.ho_limit o = Some (BankService.p_limit page)
  /\ BankService.ho_offset o = Some (BankService.p_offset page)
  /\ 1 <= BankService.p_limit page <= 100
  /\ Z.of_nat (length rows) <= BankService.p_limit page
  /\ Forall (fun e =>
               e ∈ Transactions s
               /\ (from_customer_id e = c \/ to_customer_id e = Some c)
               /\ (forall x, BankService.ho_transaction_type o = Some x -> x <> "" ->
                     BankService.transaction_type_of_string x = Some (transaction_type_of e))
               /\ (forall x, BankService.ho_status o = Some x -> x <> "" ->
                     BankService.status_of_string x = Some (status e))
               /\ (forall d, BankService.ho_start_date o = Some d -> d <= transaction_date e)
               /\ (forall d, BankService.ho_end_date o = Some d -> transaction_date e <= d))
            rows
  /\ (forall i j e1 e2, rows !! i = Some e1 -> rows !! j = Some e2 -> (i < j)%nat ->
        transaction_date e2 <= transaction_date e1)
  /\ (BankService.has_more page = true
      <-> BankService.p_offset page + Z.of_nat (length rows) < BankService.p_total page).
Proof.
  intros H rows page.
  apply getTransactionHistory_Ok in H
    as (lim & off & opts & Hc & Hlim & Hl & Hoff & Ho & Hopts & Hty & Hst & -> & ->).
  subst rows page. simpl. rewrite <- list_fmap_compose.
  rewrite (list_fmap_ext (TransactionModel.entry ∘ TransactionModel.join s) id
             (TransactionModel.limit_offset lim off
                (TransactionModel.order_by_date_desc
                   (List.filter (TransactionModel.matches c opts) (Transactions s)))))
    by done.
  rewrite list_fmap_id.
  set (all := TransactionModel.order_by_date_desc
                (List.filter (TransactionModel.matches c opts) (Transactions s))).
  assert (Hlen : length all
                 = length (List.filter (TransactionModel.matches c opts) (Transactions s)))
    by (unfold all; by rewrite order_by_date_desc_Permutation).
  unfold TransactionModel.limit_offset.
  split; [done|]. split; [done|]. split; [done|]. split; [rewrite length_take; lia|].
  split; [|split].
  - apply Forall_take, Forall_drop. rewrite Forall_forall. intros e He.
    unfold all in He. rewrite order_by_date_desc_Permutation in He.
    apply filter_In_elem_of in He as [He Hm]. split; [done|].
    unfold TransactionModel.matches in Hm. rewrite Hopts in Hm. simpl in Hm.
    rewrite !andb_true_iff in Hm. destruct Hm as [[[[Hp Ht] Hs] Hsd] Hed].
    split; [|split; [|split; [|split]]].
    + apply orb_true_iff in Hp as [Hp|Hp]; apply bool_decide_eq_true_1 in Hp; auto.
    + intros x Hx Hne. rewrite Hx in Ht. rewrite bool_decide_eq_false_2 in Ht by done.
      destruct (Hty x Hx Hne) as [ty Hty']. rewrite Hty' in Ht |- *.
      apply bool_decide_eq_true_1 in Ht. by rewrite Ht.
    + intros x Hx Hne. rewrite Hx in Hs. rewrite bool_decide_eq_false_2 in Hs by done.
      destruct (Hst x Hx Hne) as [st Hst']. rewrite Hst' in Hs |- *.
      apply bool_decide_eq_true_1 in Hs. by rewrite Hs.
    + intros d Hd. rewrite Hd in Hsd. by apply Z.leb_le in Hsd.
    + intros d Hd. rewrite Hd in Hed. by apply Z.leb_le in Hed.
  - intros i j e1 e2 Hi Hj Hij.
    eapply (StronglySorted_lookup (fun x y => transaction_date y <= transaction_date x));
      [|exact Hi|exact Hj|exact Hij].
    apply StronglySorted_take, StronglySorted_drop, order_by_date_desc_sorted.
  - rewrite length_take, length_drop, Hlen. rewrite Z.ltb_lt. lia.
Qed.

Lemma history_page_witness :
  let s := mk_state (<[1 := mk_user "A" "a@kodbank.test" 100000]>
                       (<[2 := mk_user "B" "b@kodbank.test" 300000]> ∅))
             [mk_transaction 1 1 None 5000 deposit 10 completed None;
              mk_transaction 2 2 (Some 1) 700 transfer 20 completed (Some "rent");
              mk_transaction 3 2 None 900 withdrawal 30 completed None;
              mk_transaction 4 1 (Some 2) 100 transfer 40 completed None] 5 [] 50 in
  let o := BankService.mk_history_options (Some 2) (Some 0) (Some "transfer") None
             (Some 5) None in
  let h := BankService.mk_history
             (TransactionModel.join s <$>
                [mk_transaction 4 1 (Some 2) 100 transfer 40 completed None;
                 mk_transaction 2 2 (Some 1) 700 transfer 20 completed (Some "rent")])
             (BankService.mk_pagination 2 0 2 false) in
  BankService.has_more (BankService.pagination_of h) = true
  <-> BankService.p_offset (BankService.pagination_of h)
      + Z.of_nat (length (TransactionModel.entry <$> BankService.transactions h))
      < BankService.p_total (BankService.pagination_of h).
Proof.
  intros s o h.
  refine (proj2 (proj2 (proj2 (proj2 (proj2 (proj2 (history_page s s 1 o h _))))))).
  reflexivity.
Defined.

(** A call with a customer id, a limit between 1 and 100, an offset that
    is not negative and filters that are empty or known goes through. *)
Lemma getTransactionHistory_run c lim off ty st sd ed s :
  c <> 0 -> 1 <= lim <= 100 -> 0 <= off ->
  (forall str, ty = Some str -> str <> "" ->
     is_Some (BankService.transaction_type_of_string str)) ->
  (forall str, st = Some str -> str <> "" -> is_Some (BankService.status_of_string str)) ->
  exists h,
    BankService.getTransactionHistory c
      (BankService.mk_history_options (Some lim) (Some off) ty st sd ed) s = (Ok h, s)
    /\ BankService.transactions h
       = TransactionModel.join s <$>
           TransactionModel.limit_offset lim off
             (TransactionModel.order_by_date_desc
                (List.filter
                   (TransactionModel.matches c
                      (TransactionModel.mk_options lim off
                         (match ty with
                          | Some str =>
                              if bool_decide (str = "") then None
                              else BankService.transaction_type_of_string str
                          | None => None
                          end)
                         (match st with
                          | Some str =>
                              if bool_decide (str = "") then None
                              else BankService.status_of_string str
                          | None => None
                          end) sd ed))
                   (Transactions s))).
Proof.
  intros Hc Hlim Hoff Hty Hst. unfold BankService.getTransactionHistory. simpl.
  unfold BankService.falsy_id. rewrite (proj2 (Z.eqb_neq c 0)) by done.
  run_refl.
  replace ((lim <=? 0) || (100 <? lim)) with false
    by (symmetry; apply orb_false_iff; split; [apply Z.leb_gt | apply Z.ltb_ge]; lia).
  run_refl.
  rewrite (proj2 (Z.ltb_ge off 0)) by lia.
  run_refl.
  assert (Hp : forall {A} (parse : string -> option A) inv x,
             (forall str, x = Some str -> str <> "" -> is_Some (parse str)) ->
             BankService.parse_filter parse inv x s
             = (Ok (match x with
                    | Some str => if bool_decide (str = "") then None else parse str
                    | None => None
                    end), s)).
  { intros A parse inv x Hx. unfold BankService.parse_filter. destruct x as [str|]; [|done].
    case_bool_decide; [done|]. destruct (Hx str eq_refl) as [v Hv]; [done|].
    by rewrite Hv. }
  erewrite bind_run by (by apply Hp).
  erewrite bind_run by (by apply Hp).
  eexists. split; reflexivity.
Qed.

(** X9.  Pages of the history join.  When no two rows of the ledger
    carry the same date (so that ORDER BY transaction_date fixes the order
    of the rows), the page of [l1] rows at offset [off] followed by the
    page of [l2] rows at offset [off + l1] is the page of [l1 + l2] rows at
    offset [off], for the same caller and filters and as long as [l1 + l2]
    is within the limit of 100: no row is skipped and none comes twice. *)
Theorem history_pages_join (s s1 s2 : State) (c l1 l2 off : Z) (ty st : option string)
    (sd ed : option Z) (h1 h2 : BankService.history) :
  let page lim off := BankService.mk_history_options (Some lim) (Some off) ty st sd ed in
  NoDup (transaction_date <$> Transactions s) ->
  l1 + l2 <= 100 ->
  BankService.getTransactionHistory c (page l1 off) s = (Ok h1, s1) ->
  BankService.getTransactionHistory c (page l2 (off + l1)) s = (Ok h2, s2) ->
  exists h,
    BankService.getTransactionHistory c (page (l1 + l2) off) s = (Ok h, s)
    /\ BankService.transactions h
       = (BankService.transactions h1 ++ BankService.transactions h2)%list.
Proof.
  intros page _ Hl H1 H2.
  apply getTransactionHistory_Ok in H1
    as (? & ? & opts1 & Hc & [= <-] & Hl1 & [= <-] & Hoff & -> & Hty & Hst & -> & ->).
  apply getTransactionHistory_Ok in H2
    as (? & ? & opts2 & _ & [= <-] & Hl2 & [= <-] & _ & -> & _ & _ & -> & ->).
  simpl in *.
  destruct (getTransactionHistory_run c (l1 + l2) off ty st sd ed s) as (h & Hh & Hrows);
    [done | lia | done | done | done |].
  exists h. split; [exact Hh|]. rewrite Hrows. simpl.
  rewrite <- fmap_app. f_equal. unfold TransactionModel.limit_offset.
  change (TransactionModel.matches c (TransactionModel.mk_options l1 off ?a ?b ?x ?y))
    with (TransactionModel.matches c (TransactionModel.mk_options (l1 + l2) off a b x y)).
  change (TransactionModel.matches c (TransactionModel.mk_options l2 (off + l1) ?a ?b ?x ?y))
    with (TransactionModel.matches c (TransactionModel.mk_options (l1 + l2) off a b x y)).
  rewrite !Z2Nat.inj_add by lia. rewrite <- drop_drop. by rewrite take_take_drop.
Qed.

Lemma history_pages_join_witness :
  let s := mk_state (<[1 := mk_user "A" "a@kodbank.test" 100000]>
                       (<[2 := mk_user "B" "b@kodbank.test" 300000]> ∅))
             [mk_transaction 1 1 None 5000 deposit 10 completed None;
              mk_transaction 2 2 (Some 1) 700 transfer 20 completed (Some "rent");
              mk_transaction 3 2 None 900 withdrawal 30 completed None;
              mk_transaction 4 1 (Some 2) 100 transfer 40 completed None] 5 [] 50 in
  let page lim off :=
    BankService.mk_history_options (Some lim) (Some off) None (Some "completed") None None in
  exists h,
    BankService.getTransactionHistory 1 (page (1 + 2) 0) s = (Ok h, s)
    /\ BankService.transactions h
       = ((TransactionModel.join s <$>
             [mk_transaction 4 1 (Some 2) 100 transfer 40 completed None])
          ++ (TransactionModel.join s <$>
                [mk_transaction 2 2 (Some 1) 700 transfer 20 completed (Some "rent");
                 mk_transaction 1 1 None 5000 deposit 10 completed None]))%list.
Proof.
  intros s page.
  refine (history_pages_join s s s 1 1 2 0 None (Some "completed") None None
            (BankService.mk_history _ (BankService.mk_pagination 1 0 3 true))
            (BankService.mk_history _ (BankService.mk_pagination 2 1 3 false)) _ _ _ _).
  - apply (NoDup_fmap_2_strong Z.of_nat [10; 20; 30; 40]%nat).
    + intros x y _ _. apply Nat2Z.inj.
    + apply NoDup_ListNoDup. repeat (constructor; [simpl; lia|]). constructor.
  - lia.
  - reflexivity.
  - reflexivity.
Defined.

Lemma matches_no_filter c lim off t :
  TransactionModel.matches c (TransactionModel.mk_options lim off None None None None) t
  = TransactionModel.involves c t.
Proof.
  unfold TransactionModel.matches, TransactionModel.involves. simpl.
  by rewrite !andb_true_r.
Qed.

(** X10.  The recent transactions are the head of the history.  When no
    two rows of the ledger carry the same date, a successful
    [getRecentTransactions] with a limit returns what
    [getTransactionHistory] returns as its first page of that size
    without filters, and the limit is between 1 and 20. *)
Theorem recent_is_first_page (s s' : State) (c lim : Z)
    (l : list TransactionModel.details) :
  NoDup (transaction_date <$> Transactions s) ->
  BankService.getRecentTransactions c (Some lim) s = (Ok l, s') ->
  1 <= lim <= 20
  /\ exists h,
       BankService.getTransactionHistory c
         (BankService.mk_history_options (Some lim) (Some 0) None None None None) s
       = (Ok h, s')
       /\ BankService.transactions h = l.
Proof.
  intros _ H. unfold BankService.getRecentTransactions in H.
  apply bind_Ok in H as (? & s1 & H1 & H). apply when_throw_Ok in H1 as [Hc ->].
  apply bind_Ok in H as (? & s1 & H1 & H). apply when_throw_Ok in H1 as [Hlim ->].
  unfold bind, TransactionModel.getRecentTransactions, ret in H. simpl in H.
  injection H as <- <-.
  apply orb_false_iff in Hlim as [Hl1 Hl2]. apply Z.leb_gt in Hl1. apply Z.ltb_ge in Hl2.
  unfold BankService.falsy_id in Hc. apply Z.eqb_neq in Hc.
  split; [lia|].
  destruct (getTransactionHistory_run c lim 0 None None None None s) as (h & Hh & Hrows);
    [done | lia | done | done | done |].
  exists h. split; [exact Hh|]. rewrite Hrows. unfold TransactionModel.limit_offset.
  change (Z.to_nat 0) with O. rewrite drop_0.
  rewrite (List.filter_ext _ _ (matches_no_filter c lim 0)). done.
Qed.

Lemma recent_is_first_page_witness :
  let s := mk_state (<[1 := mk_user "A" "a@kodbank.test" 100000]>
                       (<[2 := mk_user "B" "b@kodbank.test" 300000]> ∅))
             [mk_transaction 1 1 None 5000 deposit 10 completed None;
              mk_transaction 2 2 (Some 1) 700 transfer 20 completed (Some "rent");
              mk_transaction 3 2 None 900 withdrawal 30 completed None;
              mk_transaction 4 1 (Some 2) 100 transfer 40 completed None] 5 [] 50 in
  1 <= 2 <= 20
  /\ exists h,
       BankService.getTransactionHistory 2
         (BankService.mk_history_options (Some 2) (Some 0) None None None None) s
       = (Ok h, s)
       /\ BankService.transactions h
          = TransactionModel.join s <$>
              [mk_transaction 4 1 (Some 2) 100 transfer 40 completed None;
               mk_transaction 3 2 None 900 withdrawal 30 completed None].
Proof.
  intros s.
  refine (recent_is_first_page s s 2 2 _ _ _).
  - apply (NoDup_fmap_2_strong Z.of_nat [10; 20; 30; 40]%nat).
    + intros x y _ _. apply Nat2Z.inj.
    + apply NoDup_ListNoDup. repeat (constructor; [simpl; lia|]). constructor.
  - reflexivity.
Defined.

(** ** The dry run of a transfer *)






(** ** The status of a row *)

Section rows_rewritten.

(** A rewriting [g] of the rows that a test [p] does not see. *)
Context (g : TransactionRow -> TransactionRow) (p : TransactionRow -> bool).
Context (Hp : forall r, p (g r) = p r).

Lemma filter_fmap_unseen (l : list TransactionRow) :
  List.filter p (g <$> l) = g <$> List.filter p l.
Proof.
  induction l as [|r l IH]; csimpl; [done|].
  rewrite Hp. destruct (p r); csimpl; by rewrite IH.
Qed.

Lemma sum_where_fmap_unseen (l : list TransactionRow) :
  (forall r, amount (g r) = amount r) ->
  TransactionModel.sum_where p (g <$> l) = TransactionModel.sum_where p l.
Proof.
  intros Ha. unfold TransactionModel.sum_where. induction l as [|r l IH]; csimpl; [done|].
  by rewrite Hp, IH, Ha.
Qed.

Lemma find_fmap_unseen (l : list TransactionRow) :
  List.find p (g <$> l) = g <$> List.find p l.
Proof.
  induction l as [|r l IH]; csimpl; [done|].
  rewrite Hp. by destruct (p r).
Qed.

End rows_rewritten.

(** X12.  [updateStatus] moves no money.  Whatever the row and the new
    status, every balance is as before, and so is everything
    [getUserTransactionStatistics] reports, for every customer and every
    range of dates: the statistics count a row whatever its status.  When
    the call succeeds it returns the row of that id with the new status,
    and [findById] then finds that row; when it fails the error is
    [Transaction not found], nothing was written and [findById] finds no
    row of that id. *)
Theorem status_update_moves_no_money (s : State) (tid : Z) (st : transaction_status) :
  let r := TransactionModel.updateStatus tid st s in
  BankUser (snd r) = BankUser s
  /\ (forall a sd ed,
        fst (TransactionModel.getUserTransactionStatistics a sd ed (snd r))
        = fst (TransactionModel.getUserTransactionStatistics a sd ed s))
  /\ match fst r with
     | Ok t =>
         transaction_id t = tid
         /\ status t = st
         /\ fst (TransactionModel.findById tid (snd r))
            = Ok (Some (TransactionModel.join (snd r) t))
     | Throw e =>
         e = Error "Transaction not found"
         /\ snd r = s
         /\ fst (TransactionModel.findById tid s) = Ok None
     end.
Proof.
  unfold TransactionModel.updateStatus, TransactionModel.findById,
    TransactionModel.details_query.
  set (mark := fun r => if transaction_id r =? tid then TransactionModel.set_status st r
                        else r).
  assert (Hmark : forall r, mark r = r \/ mark r = TransactionModel.set_status st r)
    by (intros r; unfold mark; destruct (transaction_id r =? tid); auto).
  destruct (List.find (fun t => transaction_id t =? tid) (Transactions s)) as [t|] eqn:Hf;
    simpl.
  - split; [done|]. split.
    + intros a sd ed. unfold TransactionModel.getUserTransactionStatistics. simpl.
      rewrite (filter_fmap_unseen mark)
        by (intros r; by destruct (Hmark r) as [->| ->]).
      rewrite length_fmap.
      rewrite !(sum_where_fmap_unseen mark)
        by (intros r; by destruct (Hmark r) as [->| ->]).
      done.
    + pose proof Hf as [_ Hid]%List.find_some. apply Z.eqb_eq in Hid.
      split; [done|]. split; [done|].
      rewrite (find_fmap_unseen mark)
        by (intros r; by destruct (Hmark r) as [->| ->]).
      rewrite Hf. simpl. unfold mark. by rewrite Hid, Z.eqb_refl.
  - done.
Qed.

(** ** The rate limiter *)

Section rate_limit.

Context (maxRequests windowMs : Z).

Lemma serve_cons (requests : gmap string (list Z)) (k : string) (t : Z) calls :
  fst (serve maxRequests windowMs requests ((k, t) :: calls))
  = fst (AuthMiddleware.rateLimit maxRequests windowMs requests k t)
    :: fst (serve maxRequests windowMs
              (snd (AuthMiddleware.rateLimit maxRequests windowMs requests k t)) calls).
Proof.
  simpl. destruct (AuthMiddleware.rateLimit maxRequests windowMs requests k t) as [ok r'].
  simpl. by destruct (serve maxRequests windowMs r' calls).
Qed.

(** The times kept for a key after the cleaning step. *)
Lemma rateLimit_kept (requests : gmap string (list Z)) (key : string) (now : Z) :
  default [] (match requests !! key with
              | Some times =>
                  <[key := List.filter (fun time => now - windowMs <? time) times]> requests
              | None => requests
              end !! key)
  = List.filter (fun time => now - windowMs <? time) (default [] (requests !! key)).
Proof.
  destruct (requests !! key) as [times|] eqn:H.
  - by rewrite lookup_insert_eq.
  - by rewrite H.
Qed.

Lemma rateLimit_decision (requests : gmap string (list Z)) (key : string) (now : Z) :
  fst (AuthMiddleware.rateLimit maxRequests windowMs requests key now)
  = bool_decide
      (Z.of_nat (length (List.filter (fun time => now - windowMs <? time)
                           (default [] (requests !! key)))) < maxRequests).
Proof.
  unfold AuthMiddleware.rateLimit. cbv zeta. rewrite rateLimit_kept.
  destruct (maxRequests <=? _) eqn:H; simpl.
  - apply Z.leb_le in H. by rewrite bool_decide_eq_false_2 by lia.
  - apply Z.leb_gt in H. by rewrite bool_decide_eq_true_2 by lia.
Qed.

Lemma rateLimit_stored (requests : gmap string (list Z)) (key : string) (now : Z) :
  default [] (snd (AuthMiddleware.rateLimit maxRequests windowMs requests key now) !! key)
  = (List.filter (fun time => now - windowMs <? time) (default [] (requests !! key))
     ++ if fst (AuthMiddleware.rateLimit maxRequests windowMs requests key now)
        then [now] else [])%list.
Proof.
  unfold AuthMiddleware.rateLimit. cbv zeta.
  destruct (maxRequests <=? _) eqn:H; simpl.
  - by rewrite app_nil_r, rateLimit_kept.
  - by rewrite lookup_insert_eq, rateLimit_kept.
Qed.

Lemma rateLimit_other (requests : gmap string (list Z)) (k key : string) (now : Z) :
  k <> key ->
  snd (AuthMiddleware.rateLimit maxRequests windowMs requests k now) !! key
  = requests !! key.
Proof.
  intros Hk. unfold AuthMiddleware.rateLimit. cbv zeta.
  assert (match requests !! k with
          | Some times =>
              <[k := List.filter (fun time => now - windowMs <? time) times]> requests
          | None => requests
          end !! key = requests !! key) as Hclean
    by (destruct (requests !! k); [by rewrite lookup_insert_ne|done]).
  destruct (maxRequests <=? _); simpl; [done|]. by rewrite lookup_insert_ne.
Qed.

(** Cleaning for a later request loses nothing that an earlier cleaning
    dropped. *)
Lemma filter_window t0 t (l : list Z) :
  t0 <= t ->
  List.filter (fun time => t - windowMs <? time)
    (List.filter (fun time => t0 - windowMs <? time) l)
  = List.filter (fun time => t - windowMs <? time) l.
Proof.
  intros Ht. induction l as [|x l IH]; simpl; [done|].
  destruct (t0 - windowMs <? x) eqn:H0; simpl.
  - by rewrite IH.
  - rewrite IH. apply Z.ltb_ge in H0. by rewrite (proj2 (Z.ltb_ge (t - windowMs) x)) by lia.
Qed.

Lemma serve_decides (key : string) calls :
  forall (requests : gmap string (list Z)) passed i now,
    StronglySorted Z.le (snd <$> calls) ->
    (forall t, t ∈ snd <$> calls ->
       List.filter (fun time => t - windowMs <? time) (default [] (requests !! key))
       = List.filter (fun time => t - windowMs <? time) passed) ->
    calls !! i = Some (key, now) ->
    fst (serve maxRequests windowMs requests calls) !! i
    = Some (bool_decide
              (Z.of_nat
                 (length
                    (List.filter (fun time => now - windowMs <? time)
                       (passed
                        ++ let_through key (take i calls)
                             (take i (fst (serve maxRequests windowMs requests calls))))))
               < maxRequests)).
Proof.
  induction calls as [|[k0 t0] calls IH]; intros requests passed i now Hsorted Hinv Hi;
    [done|].
  rewrite serve_cons. rewrite fmap_cons in Hsorted, Hinv. simpl in Hsorted, Hinv.
  apply StronglySorted_inv in Hsorted as [Hsorted Hle].
  destruct i as [|i]; simpl in Hi.
  - injection Hi as -> ->. simpl. rewrite app_nil_r, rateLimit_decision.
    by rewrite (Hinv now) by apply list_elem_of_here.
  - set (ok := fst (AuthMiddleware.rateLimit maxRequests windowMs requests k0 t0)).
    rewrite lookup_cons. cbn [take let_through].
    rewrite (IH _ (passed ++ if ok && bool_decide (k0 = key) then [t0] else [])%list i now);
      [| done | | done].
    + f_equal. f_equal. destruct (ok && bool_decide (k0 = key)).
      * by rewrite <- app_assoc.
      * by rewrite app_nil_r.
    + intros t Ht.
      assert (t0 <= t) by (rewrite Forall_forall in Hle; by apply Hle).
      specialize (Hinv t (list_elem_of_further _ _ _ Ht)).
      destruct (decide (k0 = key)) as [->|Hk].
      * rewrite rateLimit_stored. fold ok.
        rewrite bool_decide_eq_true_2, andb_true_r by done.
        rewrite !List.filter_app, filter_window by done. by rewrite Hinv.
      * rewrite rateLimit_other by done.
        rewrite bool_decide_eq_false_2, andb_false_r, app_nil_r by done. done.
Qed.

End rate_limit.

(** X13.  The rate limiter counts a sliding window.  Over requests that
    arrive in the order of their times, starting with the empty Map, a
    request is let through exactly when fewer than [maxRequests] of the
    earlier requests of the same client that were let through lie within
    the last [windowMs] before it; requests that were refused and requests
    of other clients do not count. *)
Theorem rate_limit_window (maxRequests windowMs : Z) (calls : list (string * Z))
    (key : string) (i : nat) (now : Z) :
  StronglySorted Z.le (snd <$> calls) ->
  calls !! i = Some (key, now) ->
  let oks := fst (serve maxRequests windowMs ∅ calls) in
  let earlier := let_through key (take i calls) (take i oks) in
  oks !! i
  = Some (bool_decide
            (Z.of_nat (length (List.filter (fun time => now - windowMs <? time) earlier))
             < maxRequests)).
Proof.
  intros Hsorted Hi oks earlier.
  apply (serve_decides maxRequests windowMs key calls ∅ [] i now); [done| |done].
  intros t _. by rewrite lookup_empty.
Qed.

Lemma rate_limit_window_witness :
  let calls := [("10.0.0.1", 0); ("10.0.0.1", 10); ("10.0.0.2", 20); ("10.0.0.1", 30);
                ("10.0.0.1", 1005)] in
  fst (serve 2 1000 ∅ calls) !! 3%nat
  = Some (bool_decide
            (Z.of_nat (length (List.filter (fun time => 30 - 1000 <? time)
                                 (let_through "10.0.0.1" (take 3 calls)
                                    (take 3 (fst (serve 2 1000 ∅ calls))))))
             < 2)).
Proof.
  intros calls. apply (rate_limit_window 2 1000 calls "10.0.0.1" 3 30).
  - unfold calls. simpl.
    repeat (apply SSorted_cons; [|repeat (constructor; [lia|]); constructor]).
    apply SSorted_nil.
  - reflexivity.
Defined.

(** ** Amounts that are not positive *)

Lemma appended_row_is_positive s s' e :
  ledger_grows s s' -> Transactions s' = (Transactions s ++ [e])%list -> 0 < amount e.
Proof.
  intros (l & HT & Hl & _) He. rewrite HT in He. apply app_inv_head in He. subst l.
  apply List.Forall_inv in Hl. by destruct Hl.
Qed.

(** X14.  The three calls of the model never record an amount that is
    not positive, and never move money for one.  Called with an amount
    that is zero, negative, or rounds to 0.00, [executeTransfer],
    [executeDeposit] and [executeWithdrawal] throw, and every balance and
    the ledger are as before: [execute_transfer] has no test of its own
    for the sign of the amount, but its INSERT fails on
    [chk_amount_positive] and the unit is rolled back. *)
Theorem non_positive_amount_is_refused (s : State) (c t : Z) (amt : numeric)
    (descr : string) :
  to_money amt <= 0 ->
  Forall (fun call : M (option TransactionModel.details) =>
            (exists e, fst (call s) = Throw e) /\ same_tables s (snd (call s)))
    [TransactionModel.executeTransfer c t amt descr;
     TransactionModel.executeDeposit c amt descr;
     TransactionModel.executeWithdrawal c amt descr].
Proof.
  intros Hamt.
  repeat apply Forall_cons_2; [| | |apply Forall_nil_2].
  - pose proof (executeTransfer_grows c t amt descr s) as Hg.
    destruct (TransactionModel.executeTransfer c t amt descr s) as [[r|e] s'] eqn:H; simpl.
    + apply executeTransfer_Ok in H as (? & ? & _ & _ & _ & _ & _ & HT & _).
      apply (appended_row_is_positive _ _ _ Hg) in HT. simpl in HT. lia.
    + split; [eauto|]. by eapply executeTransfer_Throw.
  - pose proof (executeDeposit_grows c amt descr s) as Hg.
    destruct (TransactionModel.executeDeposit c amt descr s) as [[r|e] s'] eqn:H; simpl.
    + apply executeDeposit_Ok in H as (? & _ & _ & HT).
      apply (appended_row_is_positive _ _ _ Hg) in HT. simpl in HT. lia.
    + split; [eauto|]. by eapply transaction_Throw.
  - pose proof (executeWithdrawal_grows c amt descr s) as Hg.
    destruct (TransactionModel.executeWithdrawal c amt descr s) as [[r|e] s'] eqn:H; simpl.
    + apply executeWithdrawal_Ok in H as (? & _ & _ & _ & HT).
      apply (appended_row_is_positive _ _ _ Hg) in HT. simpl in HT. lia.
    + split; [eauto|]. by eapply transaction_Throw.
Qed.

Lemma non_positive_amount_is_refused_witness :
  let s := mk_state (<[1 := mk_user "A" "a@kodbank.test" 100000]>
                       (<[2 := mk_user "B" "b@kodbank.test" 300000]> ∅)) [] 1 [] 0 in
  Forall (fun call : M (option TransactionModel.details) =>
            (exists e, fst (call s) = Throw e) /\ same_tables s (snd (call s)))
    [TransactionModel.executeTransfer 1 2 (mk_numeric (-50000) 2) "pull";
     TransactionModel.executeDeposit 1 (mk_numeric (-50000) 2) "pull";
     TransactionModel.executeWithdrawal 1 (mk_numeric (-50000) 2) "pull"].
Proof.
  intros s. apply non_positive_amount_is_refused.
  assert (to_money (mk_numeric (-50000) 2) = -50000) as -> by reflexivity. lia.
Defined.

(** ** A transfer to oneself *)

(** X15.  A transfer to oneself is refused before any account is looked
    up: for a recipient id equal to the caller's and an amount that passes
    the amount checks, [transferMoney] throws whether or not the account
    exists and writes nothing, and the reply of [errorHandler] to that
    error has status 400 and the message [Cannot transfer to yourself],
    but the error code INTERNAL_ERROR: the branch of the handler ends in
    a label, not in an assignment to [errorCode]. *)
Theorem self_transfer_reply (s : State) (c : Z) (d : BankService.transfer_data)
    (amt : numeric) :
  BankService.td_to_customer_id d = Some c ->
  0 < c ->
  BankService.falsy_amount (BankService.td_amount d) = false ->
  BankService.parseFloat (BankService.td_amount d) = Some amt ->
  le0 amt = false ->
  gtb_int amt 10000 = false ->
  (BankService.decimalPlaces (BankService.td_amount d) <= 2)%nat ->
  exists e,
    BankService.transferMoney c d s = (Throw e, s)
    /\ ErrorHandler.errorHandler e
       = ErrorHandler.mk_response 400 "Cannot transfer to yourself" "INTERNAL_ERROR".
Proof.
  intros Ht Hc Hfalsy Hp Hle Hmax Hdec.
  exists (Error "Cannot transfer to yourself"). split; [|reflexivity].
  unfold BankService.transferMoney. apply bind_fail.
  unfold BankService.transferMoney_checks. rewrite Ht, Hp, Hfalsy, Hle, Hmax.
  unfold BankService.falsy_id. rewrite (proj2 (Z.eqb_neq c 0)) by lia.
  rewrite (proj2 (Z.ltb_ge c 0)) by lia.
  rewrite (bool_decide_eq_false_2 (2 < _)%nat) by lia.
  rewrite (bool_decide_eq_true_2 (c = c)) by done.
  reflexivity.
Qed.

Lemma self_transfer_reply_witness :
  let s := mk_state (<[1 := mk_user "A" "a@kodbank.test" 100000]> ∅) [] 1 [] 0 in
  let d := BankService.mk_transfer_data (Some 7) (BankService.Str (mk_numeric 1050 2)) None in
  exists e,
    BankService.transferMoney 7 d s = (Throw e, s)
    /\ ErrorHandler.errorHandler e
       = ErrorHandler.mk_response 400 "Cannot transfer to yourself" "INTERNAL_ERROR".
Proof.
  intros s d. apply (self_transfer_reply s 7 d (mk_numeric 105 1)).
  - reflexivity.
  - lia.
  - reflexivity.
  - reflexivity.
  - reflexivity.
  - reflexivity.
  - simpl. lia.
Defined.
